(** * Clerk JWT authentication middleware (server/app/app/middleware.py)

    A shallow embedding of [ClerkSDK] and [JWTAuthenticationMiddleware].
    The Python code talks to four collaborators: the Django cache, the
    HTTP client [requests], the PyJWT library and the Django ORM.  The
    cache and the tables of the ORM are explicit state; the HTTP peer and
    PyJWT are the fields of [Collaborators], over which the middleware is
    parameterised; every effect that leaves the process is appended to a
    trace. *)

From stdpp Require Import gmap strings list.

Open Scope string_scope.

(** ** Python values that come out of [response.json()] and the cache *)

#[local] Unset Elimination Schemes.
Inductive json : Type :=
| JNull
| JBool (b : bool)
| JNum (n : Z)
| JStr (s : string)
| JList (l : list json)
| JDict (d : list (string * json)).
#[local] Set Elimination Schemes.

(** [bool(v)], as used by [if not v] and [if v]. *)
Definition truthy (v : json) : bool :=
  match v with
  | JNull => false
  | JBool b => b
  | JNum n => negb (n =? 0)%Z
  | JStr s => negb (String.eqb s "")
  | JList l => match l with [] => false | _ :: _ => true end
  | JDict d => match d with [] => false | _ :: _ => true end
  end.

Fixpoint dict_get (k : string) (d : list (string * json)) : option json :=
  match d with
  | [] => None
  | (k', v) :: d' => if String.eqb k k' then Some v else dict_get k d'
  end.

(** ** Exceptions *)

(** The classes of PyJWT's [jwt.exceptions] that the handlers of
    [decode_jwt] tell apart, with their base classes. *)
Inductive jwt_exn : Type :=
| PyJWTError
| InvalidTokenError
| DecodeError
| InvalidSignatureError
| ExpiredSignatureError
| InvalidAudienceError
| InvalidIssuerError
| ImmatureSignatureError
| InvalidAlgorithmError
| MissingRequiredClaimError
| InvalidKeyError.

Definition jwt_exn_eqb (a b : jwt_exn) : bool :=
  match a, b with
  | PyJWTError, PyJWTError
  | InvalidTokenError, InvalidTokenError
  | DecodeError, DecodeError
  | InvalidSignatureError, InvalidSignatureError
  | ExpiredSignatureError, ExpiredSignatureError
  | InvalidAudienceError, InvalidAudienceError
  | InvalidIssuerError, InvalidIssuerError
  | ImmatureSignatureError, ImmatureSignatureError
  | InvalidAlgorithmError, InvalidAlgorithmError
  | MissingRequiredClaimError, MissingRequiredClaimError
  | InvalidKeyError, InvalidKeyError => true
  | _, _ => false
  end.

Definition base_class (e : jwt_exn) : option jwt_exn :=
  match e with
  | PyJWTError => None
  | InvalidTokenError => Some PyJWTError
  | DecodeError => Some InvalidTokenError
  | InvalidSignatureError => Some DecodeError
  | ExpiredSignatureError => Some InvalidTokenError
  | InvalidAudienceError => Some InvalidTokenError
  | InvalidIssuerError => Some InvalidTokenError
  | ImmatureSignatureError => Some InvalidTokenError
  | InvalidAlgorithmError => Some InvalidTokenError
  | MissingRequiredClaimError => Some InvalidTokenError
  | InvalidKeyError => Some PyJWTError
  end.

(** [isinstance(e, c)]: the hierarchy is three levels deep below its root. *)
Fixpoint isinstance_upto (depth : nat) (e c : jwt_exn) : bool :=
  jwt_exn_eqb e c ||
  match depth, base_class e with
  | S depth', Some b => isinstance_upto depth' b c
  | _, _ => false
  end.

Definition isinstance : jwt_exn -> jwt_exn -> bool := isinstance_upto 3.

(** The exceptions of the model: the one the middleware raises itself,
    those of its subscripts and divisions, those of PyJWT and those of the
    user lookup and creation.  What else the libraries may raise (the HTTP
    client, the JSON decoder, the timestamp conversion outside its range,
    a failing creation of a profile or activity row) is outside the
    model. *)
Inductive exn : Type :=
| AuthenticationFailed (detail : string)
| KeyError (key : json)
| IndexError
| TypeError
| JwtError (e : jwt_exn)
| DoesNotExist
| MultipleObjectsReturned
| IntegrityError.

Inductive Res (A : Type) : Type :=
| Return (a : A)
| Raise (e : exn).
Arguments Return {A} a.
Arguments Raise {A} e.

(** [v[k]] with a string subscript. *)
Definition getitem_str (v : json) (k : string) : Res json :=
  match v with
  | JDict d => match dict_get k d with
               | Some x => Return x
               | None => Raise (KeyError (JStr k))
               end
  | _ => Raise TypeError
  end.

(** [v[i]] with an integer subscript [i >= 0]. *)
Definition getitem_idx (v : json) (i : nat) : Res json :=
  match v with
  | JList l => match l !! i with
               | Some x => Return x
               | None => Raise IndexError
               end
  | JStr s => match String.get i s with
              | Some c => Return (JStr (String c EmptyString))
              | None => Raise IndexError
              end
  | JDict _ => Raise (KeyError (JNum (Z.of_nat i)))
  | _ => Raise TypeError
  end.

(** ** Strings *)

Definition space : Ascii.ascii := Ascii.ascii_of_nat 32.

(** [s.split(sep)] for a one-character separator. *)
Fixpoint split (sep : Ascii.ascii) (s : string) : list string :=
  match s with
  | EmptyString => [EmptyString]
  | String c s' =>
      if Ascii.eqb c sep then EmptyString :: split sep s'
      else match split sep s' with
           | [] => [String c EmptyString]
           | w :: ws => String c w :: ws
           end
  end.

Fixpoint contains (sep : Ascii.ascii) (s : string) : bool :=
  match s with
  | EmptyString => false
  | String c s' => Ascii.eqb c sep || contains sep s'
  end.

(** ** The local store *)

(** Modelled from the spec: [user.models.User] is not among the sources.
    The row carries its primary key and the columns that [decode_jwt]
    fills in, with the values as they were passed to [create];
    [username] is unique (migration 0008), no other column constraint is
    modelled. *)
Record User : Type := mkUser {
  pk : nat;
  username : string;
  first_name : json;
  last_name : json;
  email : json
}.

(** Modelled from the spec: [user.models.Profile] is not among the sources;
    the row keeps the primary key of the user it was created for. *)
Record Profile : Type := mkProfile { profile_user : nat }.

(** Modelled from the spec: [user.models.UserActivity] is not among the
    sources; the row keeps the primary key of the user it was created
    for. *)
Record UserActivity : Type := mkUserActivity { activity_user : nat }.

(** ** HTTP *)

Record HttpRequest : Type := mkHttpRequest {
  url : string;
  req_headers : list (string * string)
}.

(** A response whose body has been parsed: [status_code] and [json()].  A
    request that gets no answer, or an answer that is not JSON, is outside
    the model. *)
Record Response : Type := mkResponse {
  status_code : Z;
  body : json
}.

(** ** The cache *)

(** The third argument of [cache.set]: left out, or a number of seconds. *)
Inductive Timeout : Type :=
| DEFAULT_TIMEOUT
| Seconds (n : Z).

(** ** Effects *)

Inductive Event : Type :=
| HttpGet (r : HttpRequest)
| CacheSet (key : string) (value : json) (timeout : Timeout)
| CreateUser (u : User)
| CreateProfile (p : Profile)
| CreateUserActivity (a : UserActivity).

Record World : Type := mkWorld {
  cache : gmap string (json * Timeout);
  users : list User;
  user_seq : nat;
  profiles : list Profile;
  activities : list UserActivity;
  trace : list Event
}.

(** Computations read and change the world and may raise; what was done
    before an exception stays done. *)
Definition M (A : Type) : Type := World -> Res A * World.

Definition ret {A} (a : A) : M A := fun w => (Return a, w).

Definition raise {A} (e : exn) : M A := fun w => (Raise e, w).

Definition bind {A B} (m : M A) (k : A -> M B) : M B :=
  fun w =>
    match m w with
    | (Return a, w') => k a w'
    | (Raise e, w') => (Raise e, w')
    end.

Definition lift {A} (r : Res A) : M A := fun w => (r, w).

Notation "'let!' x ':=' m 'in' k" := (bind m (fun x => k))
  (at level 10, x pattern, m at level 100, k at level 200).

(** [try: m except C: h], where [handles] says which exceptions are
    instances of [C]. *)
Definition try_except {A} (m : M A) (handles : exn -> bool) (h : M A) : M A :=
  fun w =>
    match m w with
    | (Return a, w') => (Return a, w')
    | (Raise e, w') => if handles e then h w' else (Raise e, w')
    end.

Definition is_DoesNotExist (e : exn) : bool :=
  match e with
  | DoesNotExist => true
  | _ => false
  end.

(** What [cache.get(key)] returns in the world [w]: the value stored under
    the key, [None] when there is none. *)
Definition cached (key : string) (w : World) : json :=
  match cache w !! key with
  | Some (v, _) => v
  | None => JNull
  end.

Definition cache_get (key : string) : M json :=
  fun w => (Return (cached key w), w).

Definition cache_set (key : string) (value : json) (t : Timeout) : M unit :=
  fun w => (Return tt,
            mkWorld (<[key := (value, t)]> (cache w)) (users w) (user_seq w)
                    (profiles w) (activities w)
                    (trace w ++ [CacheSet key value t])).

(** ** The ORM managers *)

Definition named (name : string) (u : User) : bool :=
  String.eqb (username u) name.

(** [User.objects.get(username=name)] *)
Definition User_objects_get (name : string) : M User :=
  fun w =>
    match List.filter (named name) (users w) with
    | [] => (Raise DoesNotExist, w)
    | [u] => (Return u, w)
    | _ :: _ :: _ => (Raise MultipleObjectsReturned, w)
    end.

(** [User.objects.create(username=.., first_name=.., last_name=.., email=..)]:
    the row gets the next primary key; a second row with the same
    [username] violates the unique index. *)
Definition User_objects_create (name : string) (first last mail : json)
  : M User :=
  fun w =>
    if existsb (named name) (users w) then (Raise IntegrityError, w)
    else
      let u := mkUser (user_seq w) name first last mail in
      (Return u,
       mkWorld (cache w) (users w ++ [u]) (S (user_seq w)) (profiles w)
               (activities w) (trace w ++ [CreateUser u])).

(** [Profile.objects.create(user=u)]; the creation is taken to succeed. *)
Definition Profile_objects_create (u : User) : M Profile :=
  fun w =>
    let p := mkProfile (pk u) in
    (Return p,
     mkWorld (cache w) (users w) (user_seq w) (profiles w ++ [p])
             (activities w) (trace w ++ [CreateProfile p])).

(** [UserActivity.objects.create(user=u)]; the creation is taken to
    succeed. *)
Definition UserActivity_objects_create (u : User) : M UserActivity :=
  fun w =>
    let a := mkUserActivity (pk u) in
    (Return a,
     mkWorld (cache w) (users w) (user_seq w) (profiles w)
             (activities w ++ [a]) (trace w ++ [CreateUserActivity a])).

(** ** Values of the middleware *)

(** An aware UTC [datetime], kept as milliseconds since the epoch. *)
Inductive datetime : Type := UtcMillis (ms : Z).

(** The dictionary returned by [fetch_user_info]. *)
Record UserInfo : Type := mkUserInfo {
  info_email_address : json;
  info_first_name : json;
  info_last_name : json;
  info_last_login : option datetime
}.

(** [datetime.datetime.fromtimestamp(v / 1000, tz=pytz.UTC)]: the division
    is defined on numbers (a [bool] is a number), the instant is [v]
    milliseconds after the epoch.  This is exact for timestamps below 2^33
    seconds; the rounding of the float beyond that, and the errors of the
    conversion outside the years it supports, are not modelled. *)
Definition fromtimestamp_ms (v : json) : Res datetime :=
  match v with
  | JNum n => Return (UtcMillis n)
  | JBool b => Return (UtcMillis (Z.b2z b))
  | _ => Raise TypeError
  end.

(** The decoded claims; [payload.get("sub")] is [sub].  PyJWT hands out a
    subject only when it is a string. *)
Record Payload : Type := mkPayload { sub : option string }.

(** The incoming request, with the header names as the framework
    normalises them. *)
Record Request : Type := mkRequest { headers : gmap string string }.

Definition CLERK_API_URL : string := "https://api.clerk.com/v1".
Definition CACHE_KEY : string := "jwks_data".

(** ** What lies outside the process *)

(** The identity provider and the PyJWT library, as the middleware sees
    them: [RSAAlgorithm.from_jwk], [jwt.decode] with its [algorithms] and
    [verify_signature] arguments, the answer of the HTTP peer to a GET
    (which may depend on everything that happened before), and the two
    environment variables read at import time.  [jwt_decode] is the
    verdict of the library at the time of the call: a statement about
    calls at two different times takes two sets of collaborators. *)
Record Collaborators : Type := mkCollaborators {
  PublicKey : Type;
  from_jwk : json -> jwt_exn + PublicKey;
  jwt_decode : string -> PublicKey -> list string -> bool -> jwt_exn + Payload;
  net : list Event -> HttpRequest -> Response;
  CLERK_FRONTEND_API_URL : string;
  CLERK_SECRET_KEY : string
}.

Section Middleware.

Variable E : Collaborators.

(** [requests.get(url, headers=hs)] *)
Definition requests_get (u : string) (hs : list (string * string))
  : M Response :=
  fun w =>
    let r := mkHttpRequest u hs in
    (Return (net E (trace w) r),
     mkWorld (cache w) (users w) (user_seq w) (profiles w) (activities w)
             (trace w ++ [HttpGet r])).

(** *** class ClerkSDK *)

(** The dictionary display that both successful branches of
    [fetch_user_info] build, its entries evaluated in order. *)
Definition user_info_of (data : json) : M UserInfo :=
  let! addresses := lift (getitem_str data "email_addresses") in
  let! address := lift (getitem_idx addresses 0) in
  let! email_address := lift (getitem_str address "email_address") in
  let! first := lift (getitem_str data "first_name") in
  let! last := lift (getitem_str data "last_name") in
  let! signed_in := lift (getitem_str data "last_sign_in_at") in
  let! last_login := lift (fromtimestamp_ms signed_in) in
  ret (mkUserInfo email_address first last (Some last_login)).

Definition fetch_user_info (user_id : string) : M (UserInfo * bool) :=
  let! user_info := cache_get ("user_info_" +:+ user_id) in
  if truthy user_info then
    let! info := user_info_of user_info in
    ret (info, true)
  else
    let! response :=
      requests_get (CLERK_API_URL +:+ "/users/" +:+ user_id)
                   [("Authorization", "Bearer " +:+ CLERK_SECRET_KEY E)] in
    if (status_code response =? 200)%Z then
      let data := body response in
      let! _ := cache_set ("user_info_" +:+ user_id) data
                          (Seconds (60 * 60 * 24)) in
      let! info := user_info_of data in
      ret (info, true)
    else
      ret (mkUserInfo (JStr "") (JStr "") (JStr "") None, false).

Definition get_jwks : M json :=
  let! jwks_data := cache_get CACHE_KEY in
  if negb (truthy jwks_data) then
    let! response :=
      requests_get (CLERK_FRONTEND_API_URL E +:+ "/.well-known/jwks.json")
                   [] in
    if (status_code response =? 200)%Z then
      let jwks_data := body response in
      let! _ := cache_set CACHE_KEY jwks_data DEFAULT_TIMEOUT in
      ret jwks_data
    else
      raise (AuthenticationFailed "Failed to fetch JWKS.")
  else
    ret jwks_data.

(** *** class JWTAuthenticationMiddleware *)

(** The three [except] clauses around [jwt.decode], tried in order; an
    exception that matches none of them propagates. *)
Definition on_jwt_error (e : jwt_exn) : exn :=
  if isinstance e ExpiredSignatureError then
    AuthenticationFailed "Token has expired."
  else if isinstance e DecodeError then
    AuthenticationFailed "Token decode error."
  else if isinstance e InvalidTokenError then
    AuthenticationFailed "Invalid token."
  else JwtError e.

(** Lines 132-150 of [decode_jwt]: the body of [if user_id:], which
    provisions the local user.  The timing and the log lines leave no
    mark on the result. *)
Definition get_or_create (user_id : string) : M User :=
  let! got :=
    try_except
      (let! user := User_objects_get user_id in
       ret (user, false))
      is_DoesNotExist
      (let! fetched := fetch_user_info user_id in
       let info := fst fetched in
       let! user :=
         User_objects_create user_id (info_first_name info)
                             (info_last_name info)
                             (info_email_address info) in
       ret (user, true)) in
  let user := fst got in
  let created : bool := snd got in
  let! _ :=
    if created then
      let! _ := Profile_objects_create user in
      let! _ := UserActivity_objects_create user in
      ret tt
    else ret tt in
  ret user.

(** [if user_id: ... return user] and the final [return None]. *)
Definition resolve (user_id : option string) : M (option User) :=
  match user_id with
  | Some name =>
      if negb (String.eqb name "") then
        let! user := get_or_create name in
        ret (Some user)
      else ret None
  | None => ret None
  end.

Definition decode_jwt (token : string) : M (option User) :=
  let! jwks_data := get_jwks in
  let! keys := lift (getitem_str jwks_data "keys") in
  let! key := lift (getitem_idx keys 0) in
  match from_jwk E key with
  | inl e => raise (JwtError e)
  | inr public_key =>
      match jwt_decode E token public_key ["RS256"] true with
      | inl e => raise (on_jwt_error e)
      | inr payload => resolve (sub payload)
      end
  end.

Definition authenticate (request : Request)
  : M (option (User * option unit)) :=
  match headers request !! "Authorization" with
  | None => ret None
  | Some auth_header =>
      if String.eqb auth_header "" then ret None
      else
        match split space auth_header !! 1%nat with
        | None => raise (AuthenticationFailed "Bearer token not provided.")
        | Some token =>
            let! user := decode_jwt token in
            match user with
            | None => ret None
            | Some u => ret (Some (u, None))
            end
        end
  end.

End Middleware.

(** ** Concrete collaborators, to run the middleware on examples *)

(** A stand-in for PyJWT: a key is named by its ["kid"], a token reads
    [<kid>.<sub>] and verifies under the key of that name only; the token
    ["<kid>.<sub>.old"] is one whose expiry has passed, reported as such
    after its signature has been checked. *)
Definition demo_from_jwk (key : json) : jwt_exn + string :=
  match key with
  | JDict d => match dict_get "kid" d with
               | Some (JStr kid) => inr kid
               | _ => inl InvalidKeyError
               end
  | _ => inl InvalidKeyError
  end.

Definition dot : Ascii.ascii := Ascii.ascii_of_nat 46.

Definition demo_signer (token : string) : option string :=
  match split dot token with
  | [kid; _] | [kid; _; _] => Some kid
  | _ => None
  end.

Definition demo_jwt_decode (token : string) (public_key : string)
    (algorithms : list string) (verify_signature : bool)
  : jwt_exn + Payload :=
  match split dot token with
  | [kid; subject] =>
      if negb verify_signature || String.eqb kid public_key
      then inr (mkPayload (Some subject))
      else inl InvalidSignatureError
  | [kid; subject; _] =>
      if negb verify_signature || String.eqb kid public_key
      then inl ExpiredSignatureError
      else inl InvalidSignatureError
  | _ => inl DecodeError
  end.

Definition demo (peer : list Event -> HttpRequest -> Response)
  : Collaborators :=
  mkCollaborators string demo_from_jwk demo_jwt_decode peer
                  "https://clerk.example" "sk_test".

(** A provider that is down. *)
Definition peer_500 (_ : list Event) (_ : HttpRequest) : Response :=
  mkResponse 500 JNull.

Definition jwk (kid : string) : json := JDict [("kid", JStr kid)].

Definition jwks_of (kids : list string) : json :=
  JDict [("keys", JList (map jwk kids))].

Definition user_123_info : json :=
  JDict [("email_addresses", JList [JDict [("email_address", JStr "a@b.com")]]);
         ("first_name", JStr "A");
         ("last_name", JStr "B");
         ("last_sign_in_at", JNum 1700000000000)].

(** A provider that publishes the keys [k1] and [k2] and knows the user
    ["user_123"] only. *)
Definition peer_ok (_ : list Event) (r : HttpRequest) : Response :=
  if String.eqb (url r) "https://clerk.example/.well-known/jwks.json"
  then mkResponse 200 (jwks_of ["k1"; "k2"])
  else if String.eqb (url r) "https://api.clerk.com/v1/users/user_123"
  then mkResponse 200 user_123_info
  else mkResponse 404 (JDict [("errors", JList [])]).

(** A provider that answers every request with 201 Created. *)
Definition peer_201 (_ : list Event) (_ : HttpRequest) : Response :=
  mkResponse 201 (jwks_of ["k1"]).

(** A provider whose key endpoint answers 200 with an empty object. *)
Definition peer_empty (_ : list Event) (_ : HttpRequest) : Response :=
  mkResponse 200 (JDict []).

Definition empty_world : World := mkWorld ∅ [] 1 [] [] [].

Definition with_jwks (jwks : json) (w : World) : World :=
  mkWorld (<[CACHE_KEY := (jwks, DEFAULT_TIMEOUT)]> (cache w)) (users w)
          (user_seq w) (profiles w) (activities w) (trace w).

Definition user_123 : User :=
  mkUser 1 "user_123" (JStr "A") (JStr "B") (JStr "a@b.com").

(** A store that knows ["user_123"] already. *)
Definition known_world : World :=
  mkWorld ∅ [user_123] 2 [mkProfile 1] [mkUserActivity 1] [].

Definition bearer (value : string) : Request :=
  mkRequest {[ "Authorization" := value ]}.

(** The GET that [get_jwks] sends. *)
Definition jwks_request (E : Collaborators) : HttpRequest :=
  mkHttpRequest (CLERK_FRONTEND_API_URL E +:+ "/.well-known/jwks.json") [].

(** The GET that [fetch_user_info] sends. *)
Definition user_request (E : Collaborators) (user_id : string) : HttpRequest :=
  mkHttpRequest (CLERK_API_URL +:+ "/users/" +:+ user_id)
                [("Authorization", "Bearer " +:+ CLERK_SECRET_KEY E)].

Definition traced (e : Event) (w : World) : World :=
  mkWorld (cache w) (users w) (user_seq w) (profiles w) (activities w)
          (trace w ++ [e]).

Definition stored (key : string) (v : json) (t : Timeout) (w : World) : World :=
  mkWorld (<[key := (v, t)]> (cache w)) (users w) (user_seq w) (profiles w)
          (activities w) (trace w ++ [CacheSet key v t]).

(** The world after the three [create] calls for the new user [u]. *)
Definition provisioned (u : User) (w : World) : World :=
  mkWorld (cache w) (users w ++ [u]) (S (user_seq w))
          (profiles w ++ [mkProfile (pk u)])
          (activities w ++ [mkUserActivity (pk u)])
          (trace w ++ [CreateUser u; CreateProfile (mkProfile (pk u));
                       CreateUserActivity (mkUserActivity (pk u))]).

(** No row of the user table carries the name. *)
Definition unknown (name : string) (w : World) : Prop :=
  forall u, u ∈ users w -> username u <> name.

(** What [authenticate] makes of the outcome of [decode_jwt]. *)
Definition identity_of (r : Res (option User) * World)
  : Res (option (User * option unit)) * World :=
  match r with
  | (Return None, w) => (Return None, w)
  | (Return (Some u), w) => (Return (Some (u, None)), w)
  | (Raise e, w) => (Raise e, w)
  end.

Definition bearer_missing : exn :=
  AuthenticationFailed "Bearer token not provided.".

(** [m] never raises "Bearer token not provided." *)
Definition quiet {A} (m : M A) : Prop :=
  forall w, fst (m w) <> Raise bearer_missing.

(** The key under which [fetch_user_info] caches what it got for a user. *)
Definition user_info_key (user_id : string) : string :=
  "user_info_" +:+ user_id.

(** What the dictionary display of [fetch_user_info] evaluates to on
    [data]: the record, or the exception of the first subscript or
    division that fails. *)
Definition user_info_value (data : json) : Res UserInfo :=
  fst (user_info_of data empty_world).

(** The timestamps, in milliseconds, below 2^33 seconds after the epoch
    (the year 2242).  There the doubles lie less than a microsecond apart,
    so the float [v / 1000] is converted by [fromtimestamp], on every
    platform, to the instant of exactly [v] milliseconds; beyond this
    range the conversion of the source rounds, and it raises outside the
    years that [datetime] and the platform support. *)
Definition exact_millis (n : Z) : Prop :=
  (0 <= n < 2 ^ 33 * 1000)%Z.

(** The outcome of [fetch_user_info] when the dictionary display is
    evaluated on [data]. *)
Definition fetched (data : json) : Res (UserInfo * bool) :=
  match user_info_value data with
  | Return info => Return (info, true)
  | Raise e => Raise e
  end.

(** A provider that publishes the keys [k1] and [k2] and answers every
    user request with 200 and the body [info]. *)
Definition peer_with (info : json) (_ : list Event) (r : HttpRequest)
  : Response :=
  if String.eqb (url r) "https://clerk.example/.well-known/jwks.json"
  then mkResponse 200 (jwks_of ["k1"; "k2"])
  else mkResponse 200 info.

(** A user who has no email address on record. *)
Definition info_without_email : json :=
  JDict [("email_addresses", JList []);
         ("first_name", JStr "A");
         ("last_name", JStr "B");
         ("last_sign_in_at", JNum 1700000000000)].

(** A user who has not signed in yet. *)
Definition info_never_signed_in : json :=
  JDict [("email_addresses", JList [JDict [("email_address", JStr "a@b.com")]]);
         ("first_name", JStr "A");
         ("last_name", JStr "B");
         ("last_sign_in_at", JNull)].

Definition with_info (user_id : string) (data : json) (w : World) : World :=
  mkWorld (<[user_info_key user_id := (data, Seconds 86400)]> (cache w))
          (users w) (user_seq w) (profiles w) (activities w) (trace w).

(** ** Worlds and traces *)

(** What an event of the trace did to the world. *)
Definition apply_event (e : Event) (w : World) : World :=
  match e with
  | HttpGet _ => traced e w
  | CacheSet key value t => stored key value t w
  | CreateUser u =>
      mkWorld (cache w) (users w ++ [u]) (S (user_seq w)) (profiles w)
              (activities w) (trace w ++ [e])
  | CreateProfile p =>
      mkWorld (cache w) (users w) (user_seq w) (profiles w ++ [p])
              (activities w) (trace w ++ [e])
  | CreateUserActivity a =>
      mkWorld (cache w) (users w) (user_seq w) (profiles w)
              (activities w ++ [a]) (trace w ++ [e])
  end.

Definition replay (events : list Event) (w : World) : World :=
  fold_left (fun w e => apply_event e w) events w.

(** The three rows that come with a new user, in the order of creation. *)
Definition creation (u : User) : list Event :=
  [CreateUser u; CreateProfile (mkProfile (pk u));
   CreateUserActivity (mkUserActivity (pk u))].

(** What [get_jwks] may do: nothing, a GET, or a GET and a cache write. *)
Definition key_effects (E : Collaborators) (events : list Event) : Prop :=
  events = [] \/
  events = [HttpGet (jwks_request E)] \/
  exists data,
    events = [HttpGet (jwks_request E);
              CacheSet CACHE_KEY data DEFAULT_TIMEOUT].

(** What [fetch_user_info] may do for a user. *)
Definition info_effects (E : Collaborators) (user_id : string)
    (events : list Event) : Prop :=
  events = [] \/
  events = [HttpGet (user_request E user_id)] \/
  exists data,
    events = [HttpGet (user_request E user_id);
              CacheSet (user_info_key user_id) data (Seconds 86400)].

Definition is_HttpGet (e : Event) : bool :=
  match e with
  | HttpGet _ => true
  | _ => false
  end.

(** The consistency of the three tables: names and primary keys are
    unique, the keys in use lie below the sequence, and every profile and
    activity row refers to a user. *)
Definition store_ok (w : World) : Prop :=
  NoDup (username <$> users w) /\
  NoDup (pk <$> users w) /\
  (forall u, u ∈ users w -> pk u < user_seq w) /\
  (forall p, p ∈ profiles w -> exists u, u ∈ users w /\ pk u = profile_user p) /\
  (forall a, a ∈ activities w ->
     exists u, u ∈ users w /\ pk u = activity_user a).

(** The profiles, and the activities, of a user. *)
Definition profiles_of (u : User) (w : World) : list Profile :=
  List.filter (fun p => Nat.eqb (profile_user p) (pk u)) (profiles w).

Definition activities_of (u : User) (w : World) : list UserActivity :=
  List.filter (fun a => Nat.eqb (activity_user a) (pk u)) (activities w).

(** Every user has one profile and one activity row. *)
Definition one_each (w : World) : Prop :=
  forall u, u ∈ users w ->
    length (profiles_of u w) = 1 /\ length (activities_of u w) = 1.

(** The details with which the middleware raises AuthenticationFailed. *)
Definition rejections : list string :=
  ["Bearer token not provided."; "Failed to fetch JWKS.";
   "Token has expired."; "Token decode error."; "Invalid token."].

(** The exceptions of a failing subscript or division. *)
Definition is_lookup_error (e : exn) : bool :=
  match e with
  | KeyError _ | IndexError | TypeError => true
  | _ => false
  end.

(** The exceptions that can come out of [authenticate] in the world [w]. *)
Definition failure (w : World) (e : exn) : Prop :=
  (exists detail, e = AuthenticationFailed detail /\ detail ∈ rejections) \/
  is_lookup_error e = true \/
  (exists j, e = JwtError j) \/
  (e = MultipleObjectsReturned /\ ~ NoDup (username <$> users w)).

(** How a call of [authenticate] that started in [w] went: what it did is
    the key effects [ke] followed by the info effects [ie] and, for a new
    user, by the creation of the three rows. *)
Definition run_of (E : Collaborators) (w : World)
    (r : Res (option (User * option unit))) (w' : World)
    (ke ie : list Event) : Prop :=
  (w' = replay (ke ++ ie) w /\
   (r = Return None \/
    (exists u, r = Return (Some (u, None)) /\ u ∈ users w /\ ie = []) \/
    (exists e, r = Raise e /\ failure w e))) \/
  (exists u,
     r = Return (Some (u, None)) /\
     w' = replay (ke ++ ie ++ creation u) w /\
     unknown (username u) w /\ username u <> "" /\ pk u = user_seq w /\
     info_effects E (username u) ie).

(** * Properties *)

Section Strings.

Lemma split_nonempty sep s : split sep s <> [].
Proof.
  destruct s as [|c s]; simpl; [done|].
  destruct (Ascii.eqb c sep); [done|].
  by destruct (split sep s).
Qed.

Lemma split_without sep s : contains sep s = false -> split sep s = [s].
Proof.
  induction s as [|c s IH]; simpl; [done|].
  destruct (Ascii.eqb c sep); simpl; [done|].
  intros H. by rewrite (IH H).
Qed.

Lemma split_with sep s :
  contains sep s = true -> exists a b rest, split sep s = a :: b :: rest.
Proof.
  induction s as [|c s IH]; simpl; [done|].
  destruct (Ascii.eqb c sep); simpl.
  - intros _. destruct (split sep s) as [|b rest] eqn:Hs.
    + by destruct (split_nonempty sep s).
    + by exists EmptyString, b, rest.
  - intros H. destruct (IH H) as (a & b & rest & ->).
    by exists (String c a), b, rest.
Qed.

Lemma contains_nonempty sep s : contains sep s = true -> s <> "".
Proof. by destruct s. Qed.

End Strings.

Section Monad.

Context {A B : Type}.

Lemma bind_return (m : M A) (k : A -> M B) w a w' :
  m w = (Return a, w') -> bind m k w = k a w'.
Proof. unfold bind. by intros ->. Qed.

Lemma bind_raise (m : M A) (k : A -> M B) w e w' :
  m w = (Raise e, w') -> bind m k w = (Raise e, w').
Proof. unfold bind. by intros ->. Qed.

Lemma quiet_ret (a : A) : quiet (ret a).
Proof. by intros w. Qed.

Lemma quiet_raise e : e <> bearer_missing -> quiet (raise (A := A) e).
Proof. intros H w; simpl. congruence. Qed.

Lemma quiet_lift (r : Res A) : r <> Raise bearer_missing -> quiet (lift r).
Proof. by intros H w. Qed.

Lemma quiet_bind (m : M A) (k : A -> M B) :
  quiet m -> (forall a, quiet (k a)) -> quiet (bind m k).
Proof.
  intros Hm Hk w. unfold bind. specialize (Hm w).
  destruct (m w) as [[a|e] w']; simpl in *; [apply Hk | congruence].
Qed.

Lemma quiet_try_except (m h : M A) handles :
  quiet m -> quiet h -> quiet (try_except m handles h).
Proof.
  intros Hm Hh w. unfold try_except. specialize (Hm w).
  destruct (m w) as [[a|e] w']; simpl in *; [done|].
  destruct (handles e); [apply Hh | done].
Qed.

End Monad.

Section KeySet.

Variable E : Collaborators.

Lemma get_jwks_hit w :
  truthy (cached CACHE_KEY w) = true ->
  get_jwks E w = (Return (cached CACHE_KEY w), w).
Proof.
  intros H. unfold get_jwks, bind, cache_get. fold (cached CACHE_KEY w).
  by rewrite H.
Qed.

Lemma get_jwks_miss w :
  truthy (cached CACHE_KEY w) = false ->
  get_jwks E w =
    let response := net E (trace w) (jwks_request E) in
    if (status_code response =? 200)%Z
    then (Return (body response),
          stored CACHE_KEY (body response) DEFAULT_TIMEOUT
                 (traced (HttpGet (jwks_request E)) w))
    else (Raise (AuthenticationFailed "Failed to fetch JWKS."),
          traced (HttpGet (jwks_request E)) w).
Proof.
  intros H. unfold get_jwks, bind, cache_get. fold (cached CACHE_KEY w).
  rewrite H. simpl. unfold jwks_request.
  by destruct (status_code _ =? 200)%Z.
Qed.

(** C6, as the code has it.  A truthy value cached under ["jwks_data"] is
    returned and the world, its trace of requests included, is left as it
    was.  Otherwise (nothing cached, or a falsy value) exactly one GET goes
    to the key endpoint; [get_jwks] raises
    AuthenticationFailed("Failed to fetch JWKS.") if and only if the status
    code of the answer is not 200, and on 200 it stores the body under
    ["jwks_data"], passing no timeout, and returns it. *)
Theorem get_jwks_spec w :
  (truthy (cached CACHE_KEY w) = true ->
     get_jwks E w = (Return (cached CACHE_KEY w), w)) /\
  (truthy (cached CACHE_KEY w) = false ->
     let response := net E (trace w) (jwks_request E) in
     trace (snd (get_jwks E w)) =
       (trace w ++ HttpGet (jwks_request E) ::
          (if (status_code response =? 200)%Z
           then [CacheSet CACHE_KEY (body response) DEFAULT_TIMEOUT]
           else []))%list /\
     (fst (get_jwks E w) =
        Raise (AuthenticationFailed "Failed to fetch JWKS.") <->
      status_code response <> 200%Z) /\
     (status_code response = 200%Z ->
        fst (get_jwks E w) = Return (body response) /\
        cache (snd (get_jwks E w)) =
          <[CACHE_KEY := (body response, DEFAULT_TIMEOUT)]> (cache w))).
Proof.
  split; [apply get_jwks_hit|].
  intros Hmiss response. rewrite (get_jwks_miss w Hmiss).
  cbv zeta. fold response. destruct (status_code response =? 200)%Z eqn:Hs; simpl.
  - apply Z.eqb_eq in Hs. rewrite <- app_assoc. simpl.
    repeat split; try done.
  - apply Z.eqb_neq in Hs. repeat split; try done.
Qed.

End KeySet.

Section Adapter.

Variable E : Collaborators.

Lemma authenticate_token request auth_header token w :
  headers request !! "Authorization" = Some auth_header ->
  auth_header <> "" ->
  split space auth_header !! 1%nat = Some token ->
  authenticate E request w = identity_of (decode_jwt E token w).
Proof.
  intros Hh Hne Ht. unfold authenticate. rewrite Hh.
  apply String.eqb_neq in Hne. rewrite Hne, Ht.
  unfold bind, identity_of.
  by destruct (decode_jwt E token w) as [[[u|]|e] w'].
Qed.

(** C8.  A request without an [Authorization] header is answered with
    [None]; nothing is raised and the world is left as it was. *)
Theorem authenticate_no_header request w :
  headers request !! "Authorization" = None ->
  authenticate E request w = (Return None, w).
Proof. intros H. unfold authenticate. by rewrite H. Qed.

(** C7, as the code has it.  An [Authorization] header whose value is not
    empty and contains no space makes [authenticate] raise
    AuthenticationFailed("Bearer token not provided."), before anything
    else is done.  An [Authorization] header whose value is the empty
    string is treated like a missing header: [authenticate] returns
    [None] and leaves the world as it was. *)
Theorem authenticate_no_token request auth_header w :
  headers request !! "Authorization" = Some auth_header ->
  (auth_header <> "" ->
   contains space auth_header = false ->
   authenticate E request w = (Raise bearer_missing, w)) /\
  (auth_header = "" ->
   authenticate E request w = (Return None, w)).
Proof.
  intros Hh. split.
  - intros Hne Hsp. unfold authenticate. rewrite Hh.
    apply String.eqb_neq in Hne. rewrite Hne.
    by rewrite (split_without _ _ Hsp).
  - intros ->. unfold authenticate. by rewrite Hh.
Qed.

Lemma getitem_str_quiet v k : getitem_str v k <> Raise bearer_missing.
Proof. destruct v; try done. simpl. by destruct (dict_get k d). Qed.

Lemma getitem_idx_quiet v i : getitem_idx v i <> Raise bearer_missing.
Proof.
  destruct v; try done; simpl.
  - by destruct (String.get i s).
  - by destruct (l !! i).
Qed.

Lemma fromtimestamp_ms_quiet v : fromtimestamp_ms v <> Raise bearer_missing.
Proof. by destruct v. Qed.

Lemma quiet_user_info_of data : quiet (user_info_of data).
Proof.
  unfold user_info_of.
  repeat (apply quiet_bind;
          [apply quiet_lift;
           first [apply getitem_str_quiet | apply getitem_idx_quiet
                 | apply fromtimestamp_ms_quiet]
          | intros ?]).
  apply quiet_ret.
Qed.

Lemma quiet_fetch_user_info user_id : quiet (fetch_user_info E user_id).
Proof.
  unfold fetch_user_info. apply quiet_bind; [by intros w|]. intros v.
  destruct (truthy v).
  - apply quiet_bind; [apply quiet_user_info_of | intros ?; apply quiet_ret].
  - apply quiet_bind; [by intros w|]. intros r.
    destruct (status_code r =? 200)%Z; [|apply quiet_ret].
    apply quiet_bind; [by intros w|]. intros _.
    apply quiet_bind; [apply quiet_user_info_of | intros ?; apply quiet_ret].
Qed.

Lemma quiet_get_or_create user_id : quiet (get_or_create E user_id).
Proof.
  unfold get_or_create. apply quiet_bind.
  - apply quiet_try_except.
    + apply quiet_bind; [|intros ?; apply quiet_ret].
      intros w. unfold User_objects_get.
      by destruct (List.filter _ _) as [|? [|? ?]].
    + apply quiet_bind; [apply quiet_fetch_user_info|]. intros ?.
      apply quiet_bind; [|intros ?; apply quiet_ret].
      intros w. unfold User_objects_create. by destruct (existsb _ _).
  - intros [u created]; simpl. apply quiet_bind; [|intros ?; apply quiet_ret].
    destruct created; [|apply quiet_ret].
    apply quiet_bind; [by intros w|]. intros _.
    apply quiet_bind; [by intros w|]. intros _. apply quiet_ret.
Qed.

Lemma on_jwt_error_quiet e : on_jwt_error e <> bearer_missing.
Proof. by destruct e. Qed.

Lemma quiet_decode_jwt token : quiet (decode_jwt E token).
Proof.
  unfold decode_jwt. apply quiet_bind.
  { unfold get_jwks. apply quiet_bind; [by intros w|]. intros v.
    destruct (truthy v); simpl; [apply quiet_ret|].
    apply quiet_bind; [by intros w|]. intros r.
    destruct (status_code r =? 200)%Z; [|by apply quiet_raise].
    apply quiet_bind; [by intros w | intros _; apply quiet_ret]. }
  intros jwks. apply quiet_bind; [apply quiet_lift, getitem_str_quiet|].
  intros keys. apply quiet_bind; [apply quiet_lift, getitem_idx_quiet|].
  intros key. destruct (from_jwk E key) as [e|public_key].
  { by apply quiet_raise. }
  destruct (jwt_decode E token public_key ["RS256"] true) as [e|payload].
  { apply quiet_raise, on_jwt_error_quiet. }
  unfold resolve. destruct (sub payload) as [name|]; [|apply quiet_ret].
  destruct (negb _); [|apply quiet_ret].
  apply quiet_bind; [apply quiet_get_or_create | intros ?; apply quiet_ret].
Qed.

(** C10.  When the header value contains a space, the token is the second
    component of [auth_header.split(" ")] and [authenticate] is what
    [decode_jwt] makes of it; "Bearer token not provided." is not raised,
    neither here nor further down.  For the value ["Bearer "] the token is
    the empty string. *)
Theorem authenticate_second_component request auth_header w :
  headers request !! "Authorization" = Some auth_header ->
  contains space auth_header = true ->
  (exists token,
     split space auth_header !! 1%nat = Some token /\
     authenticate E request w = identity_of (decode_jwt E token w)) /\
  fst (authenticate E request w) <> Raise bearer_missing /\
  (auth_header = "Bearer " ->
     authenticate E request w = identity_of (decode_jwt E "" w)).
Proof.
  intros Hh Hsp.
  destruct (split_with _ _ Hsp) as (a & token & rest & Hsplit).
  assert (Ht : split space auth_header !! 1%nat = Some token)
    by by rewrite Hsplit.
  pose proof (contains_nonempty _ _ Hsp) as Hne.
  pose proof (authenticate_token request auth_header token w Hh Hne Ht) as Ha.
  split; [by exists token|]. split.
  - rewrite Ha. pose proof (quiet_decode_jwt token w) as Hq.
    unfold identity_of.
    destruct (decode_jwt E token w) as [[[u|]|e] w']; simpl in *; congruence.
  - intros ->. by apply (authenticate_token request "Bearer " "" w).
Qed.

End Adapter.

Section Verifier.

Variable E : Collaborators.

(** Once the key set is there, everything [decode_jwt] does is decided by
    the first entry of its ["keys"]. *)
Lemma decode_jwt_key_0 token w jwks w1 keys key :
  get_jwks E w = (Return jwks, w1) ->
  getitem_str jwks "keys" = Return keys ->
  getitem_idx keys 0 = Return key ->
  decode_jwt E token w =
    match from_jwk E key with
    | inl e => (Raise (JwtError e), w1)
    | inr public_key =>
        match jwt_decode E token public_key ["RS256"] true with
        | inl e => (Raise (on_jwt_error e), w1)
        | inr payload => resolve E (sub payload) w1
        end
    end.
Proof.
  intros Hj Hk H0. unfold decode_jwt.
  rewrite (bind_return _ _ _ _ _ Hj). unfold bind at 1, lift at 1.
  rewrite Hk. unfold bind at 1, lift at 1. rewrite H0.
  destruct (from_jwk E key) as [e|public_key]; [done|].
  by destruct (jwt_decode E token public_key ["RS256"] true).
Qed.

(** C1, as the code has it.  When [get_jwks] returns a key set, entry 0 of
    its ["keys"] yields a public key and [jwt.decode] raises
    ExpiredSignatureError for the token under that key, [decode_jwt]
    raises AuthenticationFailed("Token has expired."); no user is looked
    up or created. *)
Theorem decode_jwt_expired token w jwks w1 keys key public_key e :
  get_jwks E w = (Return jwks, w1) ->
  getitem_str jwks "keys" = Return keys ->
  getitem_idx keys 0 = Return key ->
  from_jwk E key = inr public_key ->
  jwt_decode E token public_key ["RS256"] true = inl e ->
  isinstance e ExpiredSignatureError = true ->
  decode_jwt E token w =
    (Raise (AuthenticationFailed "Token has expired."), w1).
Proof.
  intros Hj Hk H0 Hpk Hd He.
  rewrite (decode_jwt_key_0 token w jwks w1 keys key Hj Hk H0), Hpk, Hd.
  unfold on_jwt_error. by rewrite He.
Qed.

(** C2.  The verification key is derived from entry 0 of the key set that
    [get_jwks] returned, whatever the token says: the other entries take
    no part in the outcome.  Hence, with a [jwt.decode] that accepts a
    token only under the key that signed it, a token signed by a key found
    further down the set, and different from the key of entry 0, is
    rejected: [decode_jwt] raises and touches no user. *)
Theorem decode_jwt_first_key_only
    (signer : string -> option (PublicKey E)) token w d w1 key rest :
  (forall t k algorithms payload,
      jwt_decode E t k algorithms true = inr payload -> signer t = Some k) ->
  get_jwks E w = (Return (JDict d), w1) ->
  dict_get "keys" d = Some (JList (key :: rest)) ->
  decode_jwt E token w =
    (match from_jwk E key with
     | inl e => (Raise (JwtError e), w1)
     | inr public_key =>
         match jwt_decode E token public_key ["RS256"] true with
         | inl e => (Raise (on_jwt_error e), w1)
         | inr payload => resolve E (sub payload) w1
         end
     end) /\
  (forall other signing_key,
      other ∈ rest ->
      from_jwk E other = inr signing_key ->
      signer token = Some signing_key ->
      from_jwk E key <> inr signing_key ->
      exists e, decode_jwt E token w = (Raise e, w1)).
Proof.
  intros Hsound Hj Hk.
  assert (Hd : decode_jwt E token w =
    match from_jwk E key with
    | inl e => (Raise (JwtError e), w1)
    | inr public_key =>
        match jwt_decode E token public_key ["RS256"] true with
        | inl e => (Raise (on_jwt_error e), w1)
        | inr payload => resolve E (sub payload) w1
        end
    end).
  { apply (decode_jwt_key_0 token w (JDict d) w1 (JList (key :: rest)) key Hj);
      simpl; by rewrite ?Hk. }
  split; [exact Hd|].
  intros other signing_key _ Hother Hsigned Hdiff. rewrite Hd.
  destruct (from_jwk E key) as [e|public_key]; [by eexists|].
  destruct (jwt_decode E token public_key ["RS256"] true) as [e|payload] eqn:Hdec;
    [by eexists|].
  apply Hsound in Hdec. congruence.
Qed.

(** C9.  When the key set that [get_jwks] returned is a dictionary without
    a ["keys"] entry, [decode_jwt] raises KeyError("keys"); when its
    ["keys"] is the empty list, [decode_jwt] raises IndexError.  Neither is
    an AuthenticationFailed, and [authenticate] lets both through to its
    caller. *)
Theorem decode_jwt_no_key token w d w1 :
  get_jwks E w = (Return (JDict d), w1) ->
  (dict_get "keys" d = None ->
     decode_jwt E token w = (Raise (KeyError (JStr "keys")), w1)) /\
  (dict_get "keys" d = Some (JList []) ->
     decode_jwt E token w = (Raise IndexError, w1)) /\
  (forall request auth_header,
     headers request !! "Authorization" = Some auth_header ->
     split space auth_header !! 1%nat = Some token ->
     auth_header <> "" ->
     (dict_get "keys" d = None ->
        authenticate E request w = (Raise (KeyError (JStr "keys")), w1)) /\
     (dict_get "keys" d = Some (JList []) ->
        authenticate E request w = (Raise IndexError, w1))).
Proof.
  intros Hj.
  assert (Hnone : dict_get "keys" d = None ->
            decode_jwt E token w = (Raise (KeyError (JStr "keys")), w1)).
  { intros Hk. unfold decode_jwt. rewrite (bind_return _ _ _ _ _ Hj).
    unfold bind, lift. simpl. by rewrite Hk. }
  assert (Hnil : dict_get "keys" d = Some (JList []) ->
            decode_jwt E token w = (Raise IndexError, w1)).
  { intros Hk. unfold decode_jwt. rewrite (bind_return _ _ _ _ _ Hj).
    unfold bind, lift. simpl. by rewrite Hk. }
  split; [done|]. split; [done|].
  intros request auth_header Hh Ht Hne.
  rewrite (authenticate_token E request auth_header token w Hh Hne Ht).
  split; intros Hk.
  - by rewrite (Hnone Hk).
  - by rewrite (Hnil Hk).
Qed.

End Verifier.

Section Provisioner.

Variable E : Collaborators.

Lemma filter_unknown name (l : list User) :
  (forall u, u ∈ l -> username u <> name) -> List.filter (named name) l = [].
Proof.
  induction l as [|v l IH]; intros H; simpl; [done|].
  assert (Hv : named name v = false).
  { apply String.eqb_neq, H. by left. }
  rewrite Hv. apply IH. intros u Hu. apply H. by right.
Qed.

Lemma filter_unique (l : list User) u :
  NoDup (username <$> l) -> u ∈ l ->
  List.filter (named (username u)) l = [u].
Proof.
  induction l as [|v l IH]; intros Hnd Hin; [by apply elem_of_nil in Hin|].
  rewrite fmap_cons in Hnd. apply NoDup_cons in Hnd as [Hv Hnd].
  apply elem_of_cons in Hin as [->|Hin]; simpl.
  - unfold named at 1. rewrite String.eqb_refl. f_equal.
    apply filter_unknown. intros u Hu Heq. apply Hv.
    rewrite <- Heq. by apply list_elem_of_fmap_2.
  - assert (Hne : named (username u) v = false).
    { apply String.eqb_neq. intros Heq. apply Hv. rewrite Heq.
      by apply list_elem_of_fmap_2. }
    rewrite Hne. by apply IH.
Qed.

Lemma existsb_filter name (l : list User) :
  List.filter (named name) l = [] -> existsb (named name) l = false.
Proof.
  induction l as [|v l IH]; simpl; [done|].
  destruct (named name v); [done | exact IH].
Qed.

Lemma user_info_of_world data w : snd (user_info_of data w) = w.
Proof.
  unfold user_info_of, bind, lift, ret.
  repeat match goal with
         | |- context [match ?r with Return _ => _ | Raise _ => _ end] =>
             destruct r
         end; done.
Qed.

Lemma fetch_user_info_users user_id w r w' :
  fetch_user_info E user_id w = (r, w') ->
  users w' = users w /\ user_seq w' = user_seq w.
Proof.
  unfold fetch_user_info, bind, cache_get, requests_get, cache_set.
  intros H.
  repeat match type of H with
         | context [if ?b then _ else _] => destruct b
         | context [user_info_of ?d ?x] =>
             let Hw := fresh "Hw" in
             pose proof (user_info_of_world d x) as Hw;
             destruct (user_info_of d x) as [[?|?] ?]; simpl in Hw; subst
         end;
    unfold ret in H; by simplify_eq.
Qed.

Lemma fetch_user_info_miss user_id w :
  truthy (cached ("user_info_" +:+ user_id) w) = false ->
  fetch_user_info E user_id w =
    let response := net E (trace w) (user_request E user_id) in
    let w1 := traced (HttpGet (user_request E user_id)) w in
    if (status_code response =? 200)%Z
    then bind (user_info_of (body response)) (fun info => ret (info, true))
              (stored ("user_info_" +:+ user_id) (body response)
                      (Seconds 86400) w1)
    else (Return (mkUserInfo (JStr "") (JStr "") (JStr "") None, false), w1).
Proof.
  intros H. unfold fetch_user_info, bind at 1, cache_get.
  fold (cached ("user_info_" +:+ user_id) w). rewrite H.
  unfold bind at 1, requests_get. fold (user_request E user_id). cbv zeta.
  by destruct (status_code _ =? 200)%Z.
Qed.

(** The branch of [get_or_create] that creates: no row carries the name,
    and [fetch_user_info] came back with [info]. *)
Lemma get_or_create_new user_id w info found w1 :
  unknown user_id w ->
  fetch_user_info E user_id w = (Return (info, found), w1) ->
  get_or_create E user_id w =
    let u := mkUser (user_seq w) user_id (info_first_name info)
                    (info_last_name info) (info_email_address info) in
    (Return u, provisioned u w1).
Proof.
  intros Hun Hf.
  pose proof (fetch_user_info_users user_id w _ _ Hf) as [Hu Hs].
  pose proof (filter_unknown _ _ Hun) as Hnone.
  assert (Hex : existsb (named user_id) (users w1) = false)
    by (rewrite Hu; by apply existsb_filter).
  cbv zeta. rewrite <- Hs.
  unfold get_or_create, bind at 1, try_except, bind at 1, User_objects_get.
  rewrite Hnone. simpl. unfold bind at 1. rewrite Hf. simpl.
  unfold bind at 1, User_objects_create. rewrite Hex. simpl.
  unfold bind, Profile_objects_create, UserActivity_objects_create, ret,
    provisioned. simpl. by rewrite <- !app_assoc.
Qed.

(** C3.  The subject ["user_123"] has no local user and no cached user
    info, and the provider answers the user request with 200 and a body
    whose [email_addresses] is [[{email_address: "a@b.com"}]], whose
    [first_name] is ["A"], [last_name] is ["B"] and [last_sign_in_at] is
    1700000000000.  Then provisioning returns a new user named
    ["user_123"] with email ["a@b.com"]; the user table gains this one row
    and holds no other row of that name, the profile table and the
    activity table gain one row each, both referring to the new user, and
    the rows are created in the order User, Profile, UserActivity. *)
Theorem get_or_create_user_123 w d address :
  unknown "user_123" w ->
  truthy (cached "user_info_user_123" w) = false ->
  net E (trace w) (user_request E "user_123") = mkResponse 200 (JDict d) ->
  dict_get "email_addresses" d = Some (JList [JDict address]) ->
  dict_get "email_address" address = Some (JStr "a@b.com") ->
  dict_get "first_name" d = Some (JStr "A") ->
  dict_get "last_name" d = Some (JStr "B") ->
  dict_get "last_sign_in_at" d = Some (JNum 1700000000000) ->
  let u := mkUser (user_seq w) "user_123" (JStr "A") (JStr "B")
                  (JStr "a@b.com") in
  let w' := snd (get_or_create E "user_123" w) in
  fst (get_or_create E "user_123" w) = Return u /\
  users w' = (users w ++ [u])%list /\
  List.filter (named "user_123") (users w') = [u] /\
  profiles w' = (profiles w ++ [mkProfile (pk u)])%list /\
  activities w' = (activities w ++ [mkUserActivity (pk u)])%list /\
  trace w' =
    (trace w ++
     [HttpGet (user_request E "user_123");
      CacheSet "user_info_user_123" (JDict d) (Seconds 86400);
      CreateUser u;
      CreateProfile (mkProfile (pk u));
      CreateUserActivity (mkUserActivity (pk u))])%list.
Proof.
  intros Hun Hmiss Hnet Haddrs Haddr Hfirst Hlast Hsigned u w'.
  pose proof (fetch_user_info_miss "user_123" w Hmiss) as Hf.
  cbv zeta in Hf. rewrite Hnet in Hf. simpl in Hf.
  unfold user_info_of, bind, lift in Hf. simpl in Hf.
  rewrite Haddrs in Hf. simpl in Hf. rewrite Haddr, Hfirst, Hlast, Hsigned in Hf.
  simpl in Hf.
  pose proof (get_or_create_new "user_123" w _ _ _ Hun Hf) as Hg.
  simpl in Hg. subst w'. rewrite Hg. fold u. simpl.
  repeat split; try done.
  - rewrite List.filter_app, (filter_unknown _ _ Hun). done.
  - by rewrite <- !app_assoc.
Qed.

(** C4.  When the user table, in which names are unique, holds a user of
    the subject's name, provisioning returns that very row and leaves the
    whole world as it was: no field is written, no row is created, no
    request is sent.  And whenever a provisioning call returns a user, the
    next call for the same subject returns the same user and changes
    nothing. *)
Theorem get_or_create_existing user_id w :
  (forall u,
     NoDup (username <$> users w) -> u ∈ users w -> username u = user_id ->
     get_or_create E user_id w = (Return u, w)) /\
  (forall u w1,
     get_or_create E user_id w = (Return u, w1) ->
     get_or_create E user_id w1 = (Return u, w1)).
Proof.
  assert (Hfound : forall u w0,
            List.filter (named user_id) (users w0) = [u] ->
            get_or_create E user_id w0 = (Return u, w0)).
  { intros u w0 H. unfold get_or_create, bind, try_except, User_objects_get.
    by rewrite H. }
  split.
  - intros u Hnd Hin <-. apply Hfound. by apply filter_unique.
  - intros u w1 H.
    destruct (List.filter (named user_id) (users w)) as [|v [|v' l]] eqn:Hfl.
    + (* the first call created the user *)
      assert (Hun : unknown user_id w).
      { intros x Hx Heq.
        assert (Hxf : In x (List.filter (named user_id) (users w))).
        { apply List.filter_In. split; [by apply list_elem_of_In|].
          by apply String.eqb_eq. }
        by rewrite Hfl in Hxf. }
      destruct (fetch_user_info E user_id w) as [[[info found]|e] w2] eqn:Hf.
      * rewrite (get_or_create_new user_id w _ _ _ Hun Hf) in H.
        cbv zeta in H. injection H as <- <-.
        pose proof (fetch_user_info_users user_id w _ _ Hf) as [Hu _].
        apply Hfound. unfold provisioned; simpl.
        rewrite List.filter_app, Hu, Hfl. simpl.
        unfold named at 1. simpl. by rewrite String.eqb_refl.
      * unfold get_or_create, bind at 1, try_except, bind at 1,
          User_objects_get in H.
        rewrite Hfl in H. simpl in H. unfold bind at 1 in H.
        by rewrite Hf in H.
    + (* the first call found the user *)
      rewrite (Hfound v w Hfl) in H. injection H as <- <-. by apply Hfound.
    + unfold get_or_create, bind, try_except, User_objects_get in H.
      by rewrite Hfl in H.
Qed.

(** C5.  During first-time provisioning with no cached user info, a
    provider that answers the user request with a status other than 200
    makes [fetch_user_info] return, not raise: the record has the empty
    string for email, first and last name and [None] for the last login,
    and the flag is [False]; nothing is cached.  A local user is created
    all the same, with the empty string in its name and email fields, and
    its profile and activity rows with it. *)
Theorem get_or_create_without_info user_id w :
  truthy (cached ("user_info_" +:+ user_id) w) = false ->
  status_code (net E (trace w) (user_request E user_id)) <> 200%Z ->
  let w1 := traced (HttpGet (user_request E user_id)) w in
  fetch_user_info E user_id w =
    (Return (mkUserInfo (JStr "") (JStr "") (JStr "") None, false), w1) /\
  (unknown user_id w ->
   let u := mkUser (user_seq w) user_id (JStr "") (JStr "") (JStr "") in
   get_or_create E user_id w = (Return u, provisioned u w1)).
Proof.
  intros Hmiss Hstatus w1.
  assert (Hf : fetch_user_info E user_id w =
    (Return (mkUserInfo (JStr "") (JStr "") (JStr "") None, false), w1)).
  { rewrite (fetch_user_info_miss user_id w Hmiss). cbv zeta.
    apply Z.eqb_neq in Hstatus. by rewrite Hstatus. }
  split; [exact Hf|].
  intros Hun u. by rewrite (get_or_create_new user_id w _ _ _ Hun Hf).
Qed.

(** How [decode_jwt] gets to provisioning: with a key set, a public key
    from its entry 0 and a token that [jwt.decode] accepts with a
    non-empty subject. *)
Lemma decode_jwt_provisions token w jwks w1 keys key public_key user_id :
  get_jwks E w = (Return jwks, w1) ->
  getitem_str jwks "keys" = Return keys ->
  getitem_idx keys 0 = Return key ->
  from_jwk E key = inr public_key ->
  jwt_decode E token public_key ["RS256"] true
    = inr (mkPayload (Some user_id)) ->
  user_id <> "" ->
  decode_jwt E token w =
    match get_or_create E user_id w1 with
    | (Return user, w2) => (Return (Some user), w2)
    | (Raise e, w2) => (Raise e, w2)
    end.
Proof.
  intros Hj Hk H0 Hpk Hd Hne. unfold decode_jwt.
  rewrite (bind_return _ _ _ _ _ Hj). unfold bind at 1, lift at 1.
  rewrite Hk. unfold bind at 1, lift at 1. rewrite H0, Hpk, Hd. simpl.
  apply String.eqb_neq in Hne. rewrite Hne. simpl. unfold bind.
  by destruct (get_or_create E user_id w1) as [[u|e] w2].
Qed.

End Provisioner.

(** * The middleware at work *)

Lemma demo_jwt_decode_sound t k algorithms payload :
  demo_jwt_decode t k algorithms true = inr payload -> demo_signer t = Some k.
Proof.
  unfold demo_jwt_decode, demo_signer.
  destruct (split dot t) as [|kid [|subject [|tag [|? ?]]]]; try done; simpl.
  - destruct (String.eqb kid k) eqn:Hk; [|done].
    apply String.eqb_eq in Hk. by subst.
  - by destruct (String.eqb kid k).
Qed.

(** An expired token signed with the first published key is reported as
    expired. *)
Lemma decode_jwt_expired_demo :
  decode_jwt (demo peer_ok) "k1.user_123.old" empty_world =
    (Raise (AuthenticationFailed "Token has expired."),
     snd (get_jwks (demo peer_ok) empty_world)).
Proof.
  apply (decode_jwt_expired (demo peer_ok) "k1.user_123.old" empty_world
           (jwks_of ["k1"; "k2"]) _ (JList [jwk "k1"; jwk "k2"]) (jwk "k1")
           "k1" ExpiredSignatureError); reflexivity.
Defined.

(** C1 does not hold as stated.  The token ["k1.user_123.old"] is expired
    and its signature is good, yet with the key endpoint down
    [decode_jwt] fails with "Failed to fetch JWKS."; and where
    [jwt.decode] checks the signature before the expiry, the expired token
    ["k2.user_123.old"], whose signature is bad under the key of entry 0,
    fails with "Token decode error.". *)
Lemma decode_jwt_expired_other_errors :
  jwt_decode (demo peer_500) "k1.user_123.old" "k1" ["RS256"] true
    = inl ExpiredSignatureError /\
  fst (decode_jwt (demo peer_500) "k1.user_123.old" empty_world)
    = Raise (AuthenticationFailed "Failed to fetch JWKS.") /\
  fst (decode_jwt (demo peer_500) "k1.user_123.old" empty_world)
    <> Raise (AuthenticationFailed "Token has expired.") /\
  jwt_decode (demo peer_ok) "k2.user_123.old" "k2" ["RS256"] true
    = inl ExpiredSignatureError /\
  fst (decode_jwt (demo peer_ok) "k2.user_123.old" empty_world)
    = Raise (AuthenticationFailed "Token decode error.").
Proof. repeat split; try reflexivity. by vm_compute. Qed.

(** A token signed with the second published key is turned away. *)
Lemma decode_jwt_second_key_demo :
  demo_signer "k2.user_123" = Some "k2" /\
  exists e,
    decode_jwt (demo peer_ok) "k2.user_123" empty_world =
      (Raise e, snd (get_jwks (demo peer_ok) empty_world)).
Proof.
  split; [reflexivity|].
  destruct (decode_jwt_first_key_only (demo peer_ok) demo_signer
              "k2.user_123" empty_world
              [("keys", JList [jwk "k1"; jwk "k2"])]
              (snd (get_jwks (demo peer_ok) empty_world))
              (jwk "k1") [jwk "k2"]
              demo_jwt_decode_sound eq_refl eq_refl) as [_ H].
  apply (H (jwk "k2") "k2").
  - apply list_elem_of_here.
  - reflexivity.
  - reflexivity.
  - simpl. discriminate.
Defined.

(** First sight of ["user_123"]. *)
Lemma get_or_create_user_123_demo :
  fst (get_or_create (demo peer_ok) "user_123" empty_world) = Return user_123 /\
  fst (decode_jwt (demo peer_ok) "k1.user_123" empty_world)
    = Return (Some user_123).
Proof.
  split; [|reflexivity].
  apply (get_or_create_user_123 (demo peer_ok) empty_world
           [("email_addresses", JList [JDict [("email_address", JStr "a@b.com")]]);
            ("first_name", JStr "A");
            ("last_name", JStr "B");
            ("last_sign_in_at", JNum 1700000000000)]
           [("email_address", JStr "a@b.com")]); try reflexivity.
  intros u Hu. by apply elem_of_nil in Hu.
Defined.

(** Second sight of ["user_123"]. *)
Lemma get_or_create_existing_demo :
  get_or_create (demo peer_500) "user_123" known_world
    = (Return user_123, known_world) /\
  (let w1 := snd (get_or_create (demo peer_ok) "user_123" empty_world) in
   get_or_create (demo peer_ok) "user_123" w1 = (Return user_123, w1)).
Proof.
  split.
  - apply (proj1 (get_or_create_existing (demo peer_500) "user_123"
                    known_world) user_123).
    + apply NoDup_singleton.
    + apply list_elem_of_here.
    + reflexivity.
  - apply (proj2 (get_or_create_existing (demo peer_ok) "user_123"
                    empty_world) user_123).
    reflexivity.
Defined.

(** The provider does not know ["user_999"]. *)
Lemma get_or_create_without_info_demo :
  status_code (peer_ok [] (user_request (demo peer_ok) "user_999")) = 404%Z /\
  fst (get_or_create (demo peer_ok) "user_999" empty_world)
    = Return (mkUser 1 "user_999" (JStr "") (JStr "") (JStr "")).
Proof.
  split; [reflexivity|].
  destruct (get_or_create_without_info (demo peer_ok) "user_999" empty_world)
    as [_ H].
  - reflexivity.
  - simpl. discriminate.
  - rewrite H; [reflexivity|].
    intros u Hu. by apply elem_of_nil in Hu.
Defined.

(** A cached key set is used as it is; an empty cache is filled. *)
Lemma get_jwks_demo :
  get_jwks (demo peer_500) (with_jwks (jwks_of ["k1"]) empty_world)
    = (Return (jwks_of ["k1"]), with_jwks (jwks_of ["k1"]) empty_world) /\
  fst (get_jwks (demo peer_ok) empty_world) = Return (jwks_of ["k1"; "k2"]).
Proof.
  split.
  - apply (proj1 (get_jwks_spec (demo peer_500)
                    (with_jwks (jwks_of ["k1"]) empty_world))).
    reflexivity.
  - destruct (proj2 (get_jwks_spec (demo peer_ok) empty_world) eq_refl)
      as (_ & _ & H).
    by destruct (H eq_refl) as [-> _].
Defined.

(** C6 does not hold as stated.  A key endpoint that answers 200 with an
    empty object gets [{}] cached under ["jwks_data"]; the next call finds
    that value, takes it for a miss, and sends the request again.  And of
    the success statuses only 200 counts: on 201 [get_jwks] raises. *)
Lemma get_jwks_refetches_falsy :
  let w := snd (get_jwks (demo peer_empty) empty_world) in
  cache w !! CACHE_KEY = Some (JDict [], DEFAULT_TIMEOUT) /\
  trace (snd (get_jwks (demo peer_empty) w)) =
    (trace w ++ [HttpGet (jwks_request (demo peer_empty));
                 CacheSet CACHE_KEY (JDict []) DEFAULT_TIMEOUT])%list /\
  fst (get_jwks (demo peer_201) empty_world)
    = Raise (AuthenticationFailed "Failed to fetch JWKS.").
Proof. repeat split; reflexivity. Qed.

(** A header with a scheme and nothing else, and a header with nothing. *)
Lemma authenticate_no_token_demo :
  authenticate (demo peer_ok) (bearer "Bearer") empty_world
    = (Raise bearer_missing, empty_world) /\
  authenticate (demo peer_500) (bearer "") known_world
    = (Return None, known_world).
Proof.
  split.
  - apply (proj1 (authenticate_no_token (demo peer_ok) (bearer "Bearer")
                    "Bearer" empty_world eq_refl)).
    + discriminate.
    + reflexivity.
  - apply (proj2 (authenticate_no_token (demo peer_500) (bearer "") ""
                    known_world eq_refl)).
    reflexivity.
Defined.

(** C7 does not hold as stated.  An [Authorization] header that is present
    with the empty string as its value contains no space, and
    [authenticate] returns [None] for it. *)
Lemma authenticate_empty_header :
  headers (bearer "") !! "Authorization" = Some "" /\
  contains space "" = false /\
  authenticate (demo peer_ok) (bearer "") empty_world
    = (Return None, empty_world).
Proof. repeat split; reflexivity. Qed.

(** A request without headers. *)
Lemma authenticate_no_header_demo :
  authenticate (demo peer_ok) (mkRequest ∅) empty_world
    = (Return None, empty_world).
Proof.
  apply (authenticate_no_header (demo peer_ok) (mkRequest ∅) empty_world).
  reflexivity.
Defined.

(** A key endpoint that publishes no keys. *)
Lemma decode_jwt_no_key_demo :
  decode_jwt (demo peer_empty) "k1.user_123" empty_world
    = (Raise (KeyError (JStr "keys")),
       snd (get_jwks (demo peer_empty) empty_world)) /\
  authenticate (demo peer_500) (bearer "Bearer k1.user_123")
               (with_jwks (jwks_of []) empty_world)
    = (Raise IndexError, with_jwks (jwks_of []) empty_world).
Proof.
  split.
  - apply (proj1 (decode_jwt_no_key (demo peer_empty) "k1.user_123"
                    empty_world [] _ eq_refl)).
    reflexivity.
  - destruct (decode_jwt_no_key (demo peer_500) "k1.user_123"
                (with_jwks (jwks_of []) empty_world)
                [("keys", JList [])] _ eq_refl) as (_ & _ & H).
    destruct (H (bearer "Bearer k1.user_123") "Bearer k1.user_123"
                eq_refl eq_refl ltac:(discriminate)) as [_ Hnil].
    apply Hnil. reflexivity.
Defined.

(** A scheme followed by a space and nothing else. *)
Lemma authenticate_second_component_demo :
  authenticate (demo peer_ok) (bearer "Bearer ") empty_world
    = identity_of (decode_jwt (demo peer_ok) "" empty_world) /\
  fst (authenticate (demo peer_ok) (bearer "Bearer ") empty_world)
    = Raise (AuthenticationFailed "Token decode error.").
Proof.
  split; [|reflexivity].
  destruct (authenticate_second_component (demo peer_ok) (bearer "Bearer ")
              "Bearer " empty_world eq_refl eq_refl) as (_ & _ & H).
  apply H. reflexivity.
Defined.

(** * Beyond the claims: the user info fetcher *)

Section UserInfoFetcher.

Variable E : Collaborators.

Lemma user_info_of_pure data w :
  user_info_of data w = (user_info_value data, w).
Proof.
  unfold user_info_value, user_info_of, bind, lift, ret.
  repeat match goal with
         | |- context [match ?r with Return _ => _ | Raise _ => _ end] =>
             destruct r
         end; done.
Qed.

Lemma fetch_user_info_hit user_id w :
  truthy (cached (user_info_key user_id) w) = true ->
  fetch_user_info E user_id w =
    (fetched (cached (user_info_key user_id) w), w).
Proof.
  intros H. unfold fetch_user_info, bind at 1, cache_get.
  fold (user_info_key user_id). rewrite H. unfold bind, fetched.
  rewrite user_info_of_pure.
  by destruct (user_info_value _).
Qed.

Lemma fetch_user_info_200 user_id w :
  truthy (cached (user_info_key user_id) w) = false ->
  status_code (net E (trace w) (user_request E user_id)) = 200%Z ->
  fetch_user_info E user_id w =
    (fetched (body (net E (trace w) (user_request E user_id))),
     stored (user_info_key user_id)
            (body (net E (trace w) (user_request E user_id)))
            (Seconds 86400)
            (traced (HttpGet (user_request E user_id)) w)).
Proof.
  intros Hmiss Hs. rewrite (fetch_user_info_miss E user_id w Hmiss).
  cbv zeta. rewrite Hs. simpl. unfold bind, fetched.
  rewrite user_info_of_pure. fold (user_info_key user_id).
  by destruct (user_info_value _).
Qed.

Lemma cached_stored key v t w : cached key (stored key v t w) = v.
Proof. unfold cached, stored; simpl. by rewrite lookup_insert_eq. Qed.

Lemma fetched_record d address others email_address first last signed_in n :
  dict_get "email_addresses" d = Some (JList (JDict address :: others)) ->
  dict_get "email_address" address = Some email_address ->
  dict_get "first_name" d = Some first ->
  dict_get "last_name" d = Some last ->
  dict_get "last_sign_in_at" d = Some signed_in ->
  fromtimestamp_ms signed_in = Return (UtcMillis n) ->
  fetched (JDict d) =
    Return (mkUserInfo email_address first last (Some (UtcMillis n)), true).
Proof.
  intros Haddrs Haddr Hfirst Hlast Hsigned Hn.
  unfold fetched, user_info_value, user_info_of, bind, lift. simpl.
  rewrite Haddrs. simpl. rewrite Haddr, Hfirst, Hlast, Hsigned. simpl.
  by rewrite Hn.
Qed.

(** X1.  When something truthy is cached under the user's key,
    [fetch_user_info] sends no request and writes nothing, whatever comes
    out of it: the world stays as it was.  When the cached dictionary has
    an [email_addresses] list that starts with a dictionary with an
    [email_address], a [first_name], a [last_name] and an integer
    [last_sign_in_at] below 2^33 seconds, the outcome is the record of
    these four, the last login being that instant, with the flag [True].
    When the dictionary has no [email_addresses], the outcome is
    KeyError("email_addresses"); when it has the email address but no
    [first_name], KeyError("first_name"). *)
Theorem fetch_user_info_cached user_id w :
  truthy (cached (user_info_key user_id) w) = true ->
  snd (fetch_user_info E user_id w) = w /\
  (forall d address others email_address first last n,
     cached (user_info_key user_id) w = JDict d ->
     dict_get "email_addresses" d = Some (JList (JDict address :: others)) ->
     dict_get "email_address" address = Some email_address ->
     dict_get "first_name" d = Some first ->
     dict_get "last_name" d = Some last ->
     dict_get "last_sign_in_at" d = Some (JNum n) ->
     exact_millis n ->
     fst (fetch_user_info E user_id w) =
       Return (mkUserInfo email_address first last (Some (UtcMillis n)),
               true)) /\
  (forall d,
     cached (user_info_key user_id) w = JDict d ->
     dict_get "email_addresses" d = None ->
     fst (fetch_user_info E user_id w) =
       Raise (KeyError (JStr "email_addresses"))) /\
  (forall d address others email_address,
     cached (user_info_key user_id) w = JDict d ->
     dict_get "email_addresses" d = Some (JList (JDict address :: others)) ->
     dict_get "email_address" address = Some email_address ->
     dict_get "first_name" d = None ->
     fst (fetch_user_info E user_id w) = Raise (KeyError (JStr "first_name"))).
Proof.
  intros H. rewrite (fetch_user_info_hit user_id w H). simpl.
  split; [done|]. split; [|split].
  - intros d address others email_address first last n -> Haddrs Haddr
      Hfirst Hlast Hsigned _.
    by rewrite (fetched_record d address others email_address first last
                  (JNum n) n Haddrs Haddr Hfirst Hlast Hsigned).
  - intros d -> Haddrs.
    unfold fetched, user_info_value, user_info_of, bind, lift. simpl.
    by rewrite Haddrs.
  - intros d address others email_address -> Haddrs Haddr Hfirst.
    unfold fetched, user_info_value, user_info_of, bind, lift. simpl.
    rewrite Haddrs. simpl. by rewrite Haddr, Hfirst.
Qed.

(** X2.  A 200 answer with a truthy body is cached as it came, before its
    fields are read.  So the next call for the same user has the same
    outcome as the first, be it the record or the exception raised on a
    malformed body, and it sends no request and changes nothing. *)
Theorem fetch_user_info_again user_id w :
  truthy (cached (user_info_key user_id) w) = false ->
  status_code (net E (trace w) (user_request E user_id)) = 200%Z ->
  truthy (body (net E (trace w) (user_request E user_id))) = true ->
  let first := fetch_user_info E user_id w in
  cache (snd first) !! user_info_key user_id =
    Some (body (net E (trace w) (user_request E user_id)), Seconds 86400) /\
  fetch_user_info E user_id (snd first) = first.
Proof.
  intros Hmiss Hs Ht first. subst first.
  rewrite (fetch_user_info_200 user_id w Hmiss Hs). simpl. split.
  - by rewrite lookup_insert_eq.
  - rewrite fetch_user_info_hit; rewrite cached_stored; [done | exact Ht].
Qed.

(** X3.  A 200 answer whose [email_addresses] is the empty list makes
    [fetch_user_info] raise IndexError, after the body has been cached.
    Provisioning an unknown user then fails with that IndexError and
    creates no row. *)
Theorem fetch_user_info_no_email user_id w d :
  truthy (cached (user_info_key user_id) w) = false ->
  net E (trace w) (user_request E user_id) = mkResponse 200 (JDict d) ->
  dict_get "email_addresses" d = Some (JList []) ->
  let w1 := stored (user_info_key user_id) (JDict d) (Seconds 86400)
                   (traced (HttpGet (user_request E user_id)) w) in
  fetch_user_info E user_id w = (Raise IndexError, w1) /\
  (unknown user_id w ->
   get_or_create E user_id w = (Raise IndexError, w1) /\
   users w1 = users w /\ profiles w1 = profiles w /\
   activities w1 = activities w).
Proof.
  intros Hmiss Hnet Hd w1.
  assert (Hf : fetch_user_info E user_id w = (Raise IndexError, w1)).
  { rewrite (fetch_user_info_200 user_id w Hmiss); rewrite Hnet; [|done].
    unfold fetched, user_info_value, user_info_of, bind, lift. simpl.
    by rewrite Hd. }
  split; [exact Hf|]. intros Hun. split; [|done].
  unfold get_or_create, bind at 1, try_except, bind at 1, User_objects_get.
  rewrite (filter_unknown _ _ Hun). simpl. unfold bind at 1.
  by rewrite Hf.
Qed.

(** X4.  A 200 answer whose [last_sign_in_at] is null makes
    [fetch_user_info] raise TypeError on the division, although email and
    names are there.  Provisioning an unknown user then fails with that
    TypeError and creates no row, even though the last login is not among
    the fields the user is created with. *)
Theorem fetch_user_info_never_signed_in user_id w d address email_address
    first last :
  truthy (cached (user_info_key user_id) w) = false ->
  net E (trace w) (user_request E user_id) = mkResponse 200 (JDict d) ->
  dict_get "email_addresses" d = Some (JList (JDict address :: [])) ->
  dict_get "email_address" address = Some email_address ->
  dict_get "first_name" d = Some first ->
  dict_get "last_name" d = Some last ->
  dict_get "last_sign_in_at" d = Some JNull ->
  let w1 := stored (user_info_key user_id) (JDict d) (Seconds 86400)
                   (traced (HttpGet (user_request E user_id)) w) in
  fetch_user_info E user_id w = (Raise TypeError, w1) /\
  (unknown user_id w ->
   get_or_create E user_id w = (Raise TypeError, w1) /\
   users w1 = users w /\ profiles w1 = profiles w /\
   activities w1 = activities w).
Proof.
  intros Hmiss Hnet Haddrs Haddr Hfirst Hlast Hsigned w1.
  assert (Hf : fetch_user_info E user_id w = (Raise TypeError, w1)).
  { rewrite (fetch_user_info_200 user_id w Hmiss); rewrite Hnet; [|done].
    unfold fetched, user_info_value, user_info_of, bind, lift. simpl.
    rewrite Haddrs. simpl. by rewrite Haddr, Hfirst, Hlast, Hsigned. }
  split; [exact Hf|]. intros Hun. split; [|done].
  unfold get_or_create, bind at 1, try_except, bind at 1, User_objects_get.
  rewrite (filter_unknown _ _ Hun). simpl. unfold bind at 1.
  by rewrite Hf.
Qed.

(** X5.  When the user is unknown locally but user info is cached for the
    subject, a dictionary with an [email_addresses] list that starts with
    a dictionary with an [email_address], with a [first_name], a
    [last_name] and an integer [last_sign_in_at] below 2^33 seconds, then
    provisioning creates the user from these cached fields and asks the
    provider nothing: the three rows are all that is added to the
    trace. *)
Theorem get_or_create_from_cache user_id w d address others email_address
    first last n :
  unknown user_id w ->
  cached (user_info_key user_id) w = JDict d ->
  dict_get "email_addresses" d = Some (JList (JDict address :: others)) ->
  dict_get "email_address" address = Some email_address ->
  dict_get "first_name" d = Some first ->
  dict_get "last_name" d = Some last ->
  dict_get "last_sign_in_at" d = Some (JNum n) ->
  exact_millis n ->
  let u := mkUser (user_seq w) user_id first last email_address in
  get_or_create E user_id w = (Return u, provisioned u w) /\
  trace (provisioned u w) =
    (trace w ++ [CreateUser u; CreateProfile (mkProfile (pk u));
                 CreateUserActivity (mkUserActivity (pk u))])%list.
Proof.
  intros Hun Hc Haddrs Haddr Hfirst Hlast Hsigned _ u. split; [|done].
  assert (Hhit : truthy (cached (user_info_key user_id) w) = true).
  { rewrite Hc. by destruct d. }
  apply (get_or_create_new E user_id w
           (mkUserInfo email_address first last (Some (UtcMillis n)))
           true w Hun).
  rewrite (fetch_user_info_hit user_id w Hhit), Hc.
  by rewrite (fetched_record d address others email_address first last
                (JNum n) n Haddrs Haddr Hfirst Hlast Hsigned).
Qed.

End UserInfoFetcher.

(** * Beyond the claims: the key set and the verifier *)

Section KeysAndTokens.

Variable E : Collaborators.

Lemma usable_truthy jwks keys :
  getitem_str jwks "keys" = Return keys -> truthy jwks = true.
Proof.
  destruct jwks as [| | | | |d]; try done. by destruct d.
Qed.

Lemma get_jwks_returns w jwks w1 :
  get_jwks E w = (Return jwks, w1) ->
  (truthy (cached CACHE_KEY w) = true /\ jwks = cached CACHE_KEY w /\ w1 = w) \/
  (truthy (cached CACHE_KEY w) = false /\
   status_code (net E (trace w) (jwks_request E)) = 200%Z /\
   jwks = body (net E (trace w) (jwks_request E)) /\
   w1 = stored CACHE_KEY jwks DEFAULT_TIMEOUT
               (traced (HttpGet (jwks_request E)) w)).
Proof.
  intros H. destruct (truthy (cached CACHE_KEY w)) eqn:Ht.
  - rewrite (get_jwks_hit E w Ht) in H. left. by simplify_eq.
  - rewrite (get_jwks_miss E w Ht) in H. cbv zeta in H. right.
    destruct (status_code _ =? 200)%Z eqn:Hs; [|done].
    apply Z.eqb_eq in Hs. by simplify_eq.
Qed.

(** X6.  When [get_jwks] has returned a truthy key set, a further call
    made in the world that call left returns the same key set from the
    cache, sends no request and changes nothing.  A key set that has a
    ["keys"] entry is truthy, so this holds for every key set
    [decode_jwt] can work with. *)
Theorem get_jwks_again w jwks w1 :
  get_jwks E w = (Return jwks, w1) ->
  (truthy jwks = true -> get_jwks E w1 = (Return jwks, w1)) /\
  (forall keys,
     getitem_str jwks "keys" = Return keys ->
     get_jwks E w1 = (Return jwks, w1)).
Proof.
  intros H.
  assert (Hagain : truthy jwks = true -> get_jwks E w1 = (Return jwks, w1)).
  { intros Ht.
    destruct (get_jwks_returns w jwks w1 H)
      as [(Hc & -> & ->)|(_ & _ & _ & ->)].
    - by apply get_jwks_hit.
    - rewrite get_jwks_hit; by rewrite cached_stored. }
  split; [exact Hagain|].
  intros keys Hk. apply Hagain. by apply (usable_truthy jwks keys).
Qed.

Lemma decode_jwt_unfold token w :
  decode_jwt E token w =
    match get_jwks E w with
    | (Raise e, w1) => (Raise e, w1)
    | (Return jwks, w1) =>
        match getitem_str jwks "keys" with
        | Raise e => (Raise e, w1)
        | Return keys =>
            match getitem_idx keys 0 with
            | Raise e => (Raise e, w1)
            | Return key =>
                match from_jwk E key with
                | inl e => (Raise (JwtError e), w1)
                | inr public_key =>
                    match jwt_decode E token public_key ["RS256"] true with
                    | inl e => (Raise (on_jwt_error e), w1)
                    | inr payload => resolve E (sub payload) w1
                    end
                end
            end
        end
    end.
Proof.
  unfold decode_jwt, bind at 1.
  destruct (get_jwks E w) as [[jwks|e] w1]; [|done].
  unfold bind at 1, lift at 1.
  destruct (getitem_str jwks "keys") as [keys|e]; [|done].
  unfold bind at 1, lift at 1.
  destruct (getitem_idx keys 0) as [key|e]; [|done].
  destruct (from_jwk E key) as [e|public_key]; [done|].
  by destruct (jwt_decode E token public_key ["RS256"] true).
Qed.

(** X7.  Which errors of the library become a rejection.  With a key set
    in hand: an exception of [from_jwk] on entry 0 escapes as it is; an
    exception of [jwt.decode] that is an InvalidTokenError becomes an
    AuthenticationFailed with one of three details, "Token decode error."
    for every DecodeError such as a bad signature; any other exception of
    [jwt.decode] escapes as it is.  In none of these cases is a user
    looked up. *)
Theorem decode_jwt_library_errors token w jwks w1 keys key :
  get_jwks E w = (Return jwks, w1) ->
  getitem_str jwks "keys" = Return keys ->
  getitem_idx keys 0 = Return key ->
  (forall e, from_jwk E key = inl e ->
     decode_jwt E token w = (Raise (JwtError e), w1)) /\
  (forall public_key e,
     from_jwk E key = inr public_key ->
     jwt_decode E token public_key ["RS256"] true = inl e ->
     (isinstance e InvalidTokenError = true ->
        exists detail,
          decode_jwt E token w = (Raise (AuthenticationFailed detail), w1) /\
          detail ∈ ["Token has expired."; "Token decode error.";
                    "Invalid token."]) /\
     (isinstance e DecodeError = true ->
        decode_jwt E token w =
          (Raise (AuthenticationFailed "Token decode error."), w1)) /\
     (isinstance e InvalidTokenError = false ->
        decode_jwt E token w = (Raise (JwtError e), w1))).
Proof.
  intros Hj Hk H0. rewrite decode_jwt_unfold, Hj, Hk, H0.
  split.
  - by intros e ->.
  - intros public_key e -> ->. unfold on_jwt_error.
    destruct e; simpl; repeat split; try done; intros _; eexists;
      (split; [reflexivity|]); set_solver.
Qed.

(** X8.  A token that [jwt.decode] accepts but whose payload has no
    subject, or the empty string as subject, identifies nobody:
    [decode_jwt] returns [None] without looking at the user table, and
    [authenticate] returns [None] rather than a rejection. *)
Theorem decode_jwt_no_subject token w jwks w1 keys key public_key payload :
  get_jwks E w = (Return jwks, w1) ->
  getitem_str jwks "keys" = Return keys ->
  getitem_idx keys 0 = Return key ->
  from_jwk E key = inr public_key ->
  jwt_decode E token public_key ["RS256"] true = inr payload ->
  sub payload = None \/ sub payload = Some "" ->
  decode_jwt E token w = (Return None, w1) /\
  (forall request auth_header,
     headers request !! "Authorization" = Some auth_header ->
     auth_header <> "" ->
     split space auth_header !! 1%nat = Some token ->
     authenticate E request w = (Return None, w1)).
Proof.
  intros Hj Hk H0 Hpk Hd Hsub.
  assert (Hdec : decode_jwt E token w = (Return None, w1)).
  { rewrite decode_jwt_unfold, Hj, Hk, H0, Hpk, Hd.
    by destruct Hsub as [-> | ->]. }
  split; [exact Hdec|].
  intros request auth_header Hh Hne Ht.
  by rewrite (authenticate_token E request auth_header token w Hh Hne Ht), Hdec.
Qed.

End KeysAndTokens.

(** * Beyond the claims: whole runs of the middleware *)

Section Runs.

Variable E : Collaborators.

Lemma filter_nil_unknown name w :
  List.filter (named name) (users w) = [] -> unknown name w.
Proof.
  intros Hfl x Hx Heq.
  assert (Hxf : In x (List.filter (named name) (users w))).
  { apply List.filter_In. split; [by apply list_elem_of_In|].
    by apply String.eqb_eq. }
  by rewrite Hfl in Hxf.
Qed.

Lemma filter_named_In name (l : list User) u :
  In u (List.filter (named name) l) -> u ∈ l /\ username u = name.
Proof.
  intros H. apply List.filter_In in H as [Hin Hn]. split.
  - by apply list_elem_of_In.
  - by apply String.eqb_eq.
Qed.

Lemma filter_two_dup name (l : list User) u v rest :
  List.filter (named name) l = u :: v :: rest ->
  ~ NoDup (username <$> l).
Proof.
  revert u v rest. induction l as [|x l IH]; intros u v rest Hfl Hnd;
    simpl in Hfl; [done|].
  rewrite fmap_cons in Hnd.
  apply NoDup_cons in Hnd as [Hx Hnd].
  destruct (named name x) eqn:Hn.
  - injection Hfl as -> Hfl. apply Hx.
    assert (Hv : In v (List.filter (named name) l))
      by (rewrite Hfl; by left).
    apply filter_named_In in Hv as [Hv Hvn].
    apply String.eqb_eq in Hn. rewrite Hn, <- Hvn.
    by apply list_elem_of_fmap_2.
  - by apply (IH u v rest).
Qed.

Lemma getitem_str_raises v k e :
  getitem_str v k = Raise e -> is_lookup_error e = true.
Proof.
  destruct v; simpl; try (by intros [= <-]).
  destruct (dict_get k d); [done | by intros [= <-]].
Qed.

Lemma getitem_idx_raises v i e :
  getitem_idx v i = Raise e -> is_lookup_error e = true.
Proof.
  destruct v; simpl; try (by intros [= <-]).
  - destruct (String.get i s); [done | by intros [= <-]].
  - destruct (l !! i); [done | by intros [= <-]].
Qed.

Lemma fromtimestamp_ms_raises v e :
  fromtimestamp_ms v = Raise e -> is_lookup_error e = true.
Proof. destruct v; simpl; try done; by intros [= <-]. Qed.

Lemma user_info_value_raises data e :
  user_info_value data = Raise e -> is_lookup_error e = true.
Proof.
  unfold user_info_value, user_info_of, bind, lift, ret.
  repeat match goal with
         | |- context [match ?r with Return _ => _ | Raise _ => _ end] =>
             let H := fresh "H" in destruct r eqn:H
         end; simpl; try done; intros [= <-];
    eauto using getitem_str_raises, getitem_idx_raises,
      fromtimestamp_ms_raises.
Qed.

Lemma fetched_raises data e :
  fetched data = Raise e -> is_lookup_error e = true.
Proof.
  unfold fetched. destruct (user_info_value data) eqn:H; [done|].
  intros [= <-]. by apply (user_info_value_raises data).
Qed.

(** Everything [fetch_user_info] can do. *)
Lemma fetch_user_info_outcome user_id w r w' :
  fetch_user_info E user_id w = (r, w') ->
  exists ie,
    info_effects E user_id ie /\ w' = replay ie w /\
    (forall e, r = Raise e -> is_lookup_error e = true).
Proof.
  intros H. destruct (truthy (cached (user_info_key user_id) w)) eqn:Ht.
  - rewrite (fetch_user_info_hit E user_id w Ht) in H.
    injection H as <- <-. exists []. split; [by left|]. split; [done|].
    intros e. apply fetched_raises.
  - destruct (decide (status_code (net E (trace w) (user_request E user_id))
                      = 200%Z)) as [Hs|Hs].
    + rewrite (fetch_user_info_200 E user_id w Ht Hs) in H.
      injection H as <- <-. eexists [_; _].
      split; [right; right; by eexists|]. split; [done|].
      intros e. apply fetched_raises.
    + rewrite (fetch_user_info_miss E user_id w Ht) in H. cbv zeta in H.
      apply Z.eqb_neq in Hs. rewrite Hs in H. injection H as <- <-.
      exists [HttpGet (user_request E user_id)].
      split; [right; by left|]. by split.
Qed.

(** Everything [get_jwks] can do. *)
Lemma get_jwks_outcome w r w1 :
  get_jwks E w = (r, w1) ->
  exists ke,
    key_effects E ke /\ w1 = replay ke w /\
    (forall e, r = Raise e ->
       e = AuthenticationFailed "Failed to fetch JWKS.").
Proof.
  intros H. destruct (truthy (cached CACHE_KEY w)) eqn:Ht.
  - rewrite (get_jwks_hit E w Ht) in H. injection H as <- <-.
    exists []. split; [by left|]. by split.
  - rewrite (get_jwks_miss E w Ht) in H. cbv zeta in H.
    destruct (status_code _ =? 200)%Z; injection H as <- <-.
    + eexists [_; _]. split; [right; right; by eexists|]. by split.
    + exists [HttpGet (jwks_request E)]. split; [right; by left|].
      split; [done|]. by intros e [= <-].
Qed.

(** Everything the provisioning block can do. *)
Lemma get_or_create_outcome name w r w' :
  get_or_create E name w = (r, w') ->
  (exists u, List.filter (named name) (users w) = [u] /\
             r = Return u /\ w' = w) \/
  (unknown name w /\
   exists info found w2,
     fetch_user_info E name w = (Return (info, found), w2) /\
     r = Return (mkUser (user_seq w) name (info_first_name info)
                        (info_last_name info) (info_email_address info)) /\
     w' = provisioned (mkUser (user_seq w) name (info_first_name info)
                              (info_last_name info)
                              (info_email_address info)) w2) \/
  (unknown name w /\
   exists e, fetch_user_info E name w = (Raise e, w') /\ r = Raise e) \/
  (exists u v rest,
     List.filter (named name) (users w) = u :: v :: rest /\
     r = Raise MultipleObjectsReturned /\ w' = w).
Proof.
  intros H.
  destruct (List.filter (named name) (users w)) as [|u [|v rest]] eqn:Hfl.
  - pose proof (filter_nil_unknown name w Hfl) as Hun.
    destruct (fetch_user_info E name w) as [[[info found]|e] w2] eqn:Hf.
    + rewrite (get_or_create_new E name w _ _ _ Hun Hf) in H.
      cbv zeta in H. injection H as <- <-.
      right; left. split; [done|]. by exists info, found, w2.
    + unfold get_or_create, bind at 1, try_except, bind at 1,
        User_objects_get in H.
      rewrite Hfl in H. simpl in H. unfold bind at 1 in H.
      rewrite Hf in H. injection H as <- <-.
      right; right; left. split; [done|]. by exists e.
  - unfold get_or_create, bind, try_except, User_objects_get in H.
    rewrite Hfl in H. simpl in H. injection H as <- <-.
    left. by exists u.
  - unfold get_or_create, bind, try_except, User_objects_get in H.
    rewrite Hfl in H. simpl in H. injection H as <- <-.
    right; right; right. by exists u, v, rest.
Qed.

Lemma replay_app evs1 evs2 w :
  replay (evs1 ++ evs2) w = replay evs2 (replay evs1 w).
Proof. unfold replay. apply fold_left_app. Qed.

Lemma provisioned_replay u w : provisioned u w = replay (creation u) w.
Proof.
  unfold provisioned, replay, creation; simpl. by rewrite <- !app_assoc.
Qed.

Lemma trace_replay evs w : trace (replay evs w) = (trace w ++ evs)%list.
Proof.
  revert w. induction evs as [|e evs IH]; intros w; simpl.
  - by rewrite app_nil_r.
  - rewrite IH. destruct e; simpl; by rewrite <- app_assoc.
Qed.

Lemma key_effects_tables ke w :
  key_effects E ke ->
  users (replay ke w) = users w /\ user_seq (replay ke w) = user_seq w /\
  profiles (replay ke w) = profiles w /\
  activities (replay ke w) = activities w.
Proof. by intros [->|[->|[d ->]]]. Qed.

Lemma info_effects_tables name ie w :
  info_effects E name ie ->
  users (replay ie w) = users w /\ user_seq (replay ie w) = user_seq w /\
  profiles (replay ie w) = profiles w /\
  activities (replay ie w) = activities w.
Proof. by intros [->|[->|[d ->]]]. Qed.

Lemma on_jwt_error_failure w e : failure w (on_jwt_error e).
Proof.
  unfold on_jwt_error, failure, rejections.
  destruct e; simpl;
    first [ left; eexists; split; [reflexivity | set_solver]
          | right; right; left; by eexists ].
Qed.

Lemma authenticate_no_header_world request w :
  headers request !! "Authorization" = None ->
  authenticate E request w = (Return None, w).
Proof. intros H. unfold authenticate. by rewrite H. Qed.

Lemma authenticate_cases request w :
  authenticate E request w = (Return None, w) \/
  authenticate E request w = (Raise bearer_missing, w) \/
  exists auth_header token,
    headers request !! "Authorization" = Some auth_header /\
    auth_header <> "" /\
    split space auth_header !! 1%nat = Some token /\
    authenticate E request w = identity_of (decode_jwt E token w).
Proof.
  destruct (headers request !! "Authorization") as [auth_header|] eqn:Hh.
  - destruct (String.eqb auth_header "") eqn:Hempty.
    + left. unfold authenticate. by rewrite Hh, Hempty.
    + apply String.eqb_neq in Hempty.
      destruct (split space auth_header !! 1%nat) as [token|] eqn:Ht.
      * right; right. exists auth_header, token. repeat split; try done.
        by apply (authenticate_token E request auth_header token w).
      * right; left. unfold authenticate. rewrite Hh, Ht.
        apply String.eqb_neq in Hempty. by rewrite Hempty.
  - left. by apply authenticate_no_header_world.
Qed.

Lemma run_of_failed w w' ke e :
  failure w e -> w' = replay ke w ->
  run_of E w (Raise e) w' ke [].
Proof.
  intros Hf ->. left. rewrite app_nil_r. split; [done|].
  right; right. by exists e.
Qed.

Lemma run_of_nobody w w' ke :
  w' = replay ke w -> run_of E w (Return None) w' ke [].
Proof. intros ->. left. rewrite app_nil_r. split; [done | by left]. Qed.

(** Everything [decode_jwt] can do, as [authenticate] reports it. *)
Lemma decode_jwt_run token w r w' :
  identity_of (decode_jwt E token w) = (r, w') ->
  exists ke ie,
    key_effects E ke /\ (exists name, info_effects E name ie) /\
    run_of E w r w' ke ie.
Proof.
  rewrite decode_jwt_unfold.
  destruct (get_jwks E w) as [rj w1] eqn:Hj.
  destruct (get_jwks_outcome w rj w1 Hj) as (ke & Hke & Hw1 & Hraise).
  pose proof (key_effects_tables ke w Hke) as (Hu & Hs & _ & _).
  rewrite <- Hw1 in Hu, Hs.
  assert (Hnone : exists name : string, info_effects E name [])
    by (exists ""; by left).
  destruct rj as [jwks|e].
  2:{ simpl. intros [= <- <-]. exists ke, []. repeat split; try done.
      apply run_of_failed; [|done]. left. eexists. split; [by apply Hraise|].
      apply list_elem_of_further, list_elem_of_here. }
  destruct (getitem_str jwks "keys") as [keys|e] eqn:Hk.
  2:{ simpl. intros [= <- <-]. exists ke, []. repeat split; try done.
      apply run_of_failed; [|done]. right; left.
      by apply (getitem_str_raises jwks "keys"). }
  destruct (getitem_idx keys 0) as [key|e] eqn:H0.
  2:{ simpl. intros [= <- <-]. exists ke, []. repeat split; try done.
      apply run_of_failed; [|done]. right; left.
      by apply (getitem_idx_raises keys 0). }
  destruct (from_jwk E key) as [e|public_key].
  { simpl. intros [= <- <-]. exists ke, []. repeat split; try done.
    apply run_of_failed; [|done]. right; right; left. by eexists. }
  destruct (jwt_decode E token public_key ["RS256"] true) as [e|payload].
  { simpl. intros [= <- <-]. exists ke, []. repeat split; try done.
    apply run_of_failed; [apply on_jwt_error_failure | done]. }
  unfold resolve. destruct (sub payload) as [name|].
  2:{ simpl. intros [= <- <-]. exists ke, []. repeat split; try done.
      by apply run_of_nobody. }
  destruct (String.eqb name "") eqn:Hname; simpl.
  { intros [= <- <-]. exists ke, []. repeat split; try done.
    by apply run_of_nobody. }
  apply String.eqb_neq in Hname. unfold bind.
  destruct (get_or_create E name w1) as [rg w2] eqn:Hg.
  destruct (get_or_create_outcome name w1 rg w2 Hg)
    as [(u & Hfl & -> & ->)
       |[(Hun & info & found & w3 & Hf & -> & ->)
        |[(Hun & e & Hf & ->)
         |(u & v & rest & Hfl & -> & ->)]]]; simpl; intros [= <- <-].
  - exists ke, []. repeat split; try done. left. rewrite app_nil_r.
    split; [done|]. right; left. exists u. repeat split; try done.
    rewrite <- Hu.
    apply (filter_named_In name (users w1) u). rewrite Hfl. by left.
  - destruct (fetch_user_info_outcome name w1 _ _ Hf) as (ie & Hie & -> & _).
    pose proof (info_effects_tables name ie w1 Hie) as (_ & Hs3 & _ & _).
    exists ke, ie. split; [done|]. split; [by exists name|]. right.
    eexists. split; [reflexivity|]. simpl. repeat split; try done.
    + by rewrite provisioned_replay, Hw1, !replay_app.
    + unfold unknown. rewrite <- Hu. exact Hun.
  - destruct (fetch_user_info_outcome name w1 _ _ Hf) as (ie & Hie & -> & He).
    exists ke, ie. split; [done|]. split; [by exists name|]. left.
    split; [by rewrite Hw1, replay_app|]. right; right. exists e.
    split; [done|]. right; left. by apply He.
  - exists ke, []. repeat split; try done.
    apply run_of_failed; [|done]. right; right; right. split; [done|].
    rewrite <- Hu. by apply (filter_two_dup name (users w1) u v rest).
Qed.

(** Everything [authenticate] can do. *)
Lemma authenticate_run request w r w' :
  authenticate E request w = (r, w') ->
  exists ke ie,
    key_effects E ke /\ (exists name, info_effects E name ie) /\
    run_of E w r w' ke ie.
Proof.
  intros H.
  destruct (authenticate_cases request w)
    as [Ha|[Ha|(auth_header & token & _ & _ & _ & Ha)]]; rewrite Ha in H.
  - injection H as <- <-. exists [], []. split; [by left|].
    split; [exists ""; by left|]. by apply run_of_nobody.
  - injection H as <- <-. exists [], []. split; [by left|].
    split; [exists ""; by left|]. apply run_of_failed; [|done].
    left. eexists. split; [reflexivity|]. unfold rejections. set_solver.
  - by apply (decode_jwt_run token).
Qed.

Lemma get_or_create_found name w u :
  List.filter (named name) (users w) = [u] ->
  get_or_create E name w = (Return u, w).
Proof.
  intros H. unfold get_or_create, bind, try_except, User_objects_get.
  by rewrite H.
Qed.

Lemma get_or_create_named name w u w' :
  get_or_create E name w = (Return u, w') ->
  username u = name /\ List.filter (named name) (users w') = [u].
Proof.
  intros H.
  destruct (get_or_create_outcome name w _ _ H)
    as [(v & Hfl & [= <-] & ->)
       |[(Hun & info & found & w2 & Hf & [= ->] & ->)
        |[(_ & e & _ & [=])|(? & ? & ? & _ & [=] & _)]]].
  - split; [|done].
    apply (filter_named_In name (users w) u). rewrite Hfl. by left.
  - split; [done|].
    pose proof (fetch_user_info_users E name w _ _ Hf) as [Hu _].
    unfold provisioned; simpl.
    rewrite List.filter_app, Hu, (filter_unknown _ _ Hun). simpl.
    unfold named at 1. simpl. by rewrite String.eqb_refl.
Qed.

Lemma user_info_key_not_jwks user_id : user_info_key user_id <> CACHE_KEY.
Proof. done. Qed.

Lemma info_effects_cache name ie w k :
  info_effects E name ie -> k <> user_info_key name ->
  cache (replay ie w) !! k = cache w !! k.
Proof.
  intros [->|[->|[d ->]]] Hk; simpl; try done.
  by rewrite lookup_insert_ne.
Qed.

Lemma key_effects_cache ke w k :
  key_effects E ke -> k <> CACHE_KEY ->
  cache (replay ke w) !! k = cache w !! k.
Proof.
  intros [->|[->|[d ->]]] Hk; simpl; try done.
  by rewrite lookup_insert_ne.
Qed.

Lemma get_or_create_keeps_jwks name w r w' :
  get_or_create E name w = (r, w') ->
  cached CACHE_KEY w' = cached CACHE_KEY w.
Proof.
  intros H. unfold cached.
  destruct (get_or_create_outcome name w _ _ H)
    as [(v & _ & _ & ->)
       |[(_ & info & found & w2 & Hf & _ & ->)
        |[(_ & e & Hf & _)|(? & ? & ? & _ & _ & ->)]]]; try done.
  - destruct (fetch_user_info_outcome name w _ _ Hf) as (ie & Hie & -> & _).
    simpl. rewrite (info_effects_cache name ie w CACHE_KEY Hie); [done|].
    intros Heq. by apply (user_info_key_not_jwks name).
  - destruct (fetch_user_info_outcome name w _ _ Hf) as (ie & Hie & -> & _).
    rewrite (info_effects_cache name ie w CACHE_KEY Hie); [done|].
    intros Heq. by apply (user_info_key_not_jwks name).
Qed.

Lemma get_jwks_cached w jwks w1 :
  get_jwks E w = (Return jwks, w1) -> cached CACHE_KEY w1 = jwks.
Proof.
  intros H.
  destruct (get_jwks_returns E w jwks w1 H)
    as [(_ & -> & ->)|(_ & _ & _ & ->)]; [done|].
  apply cached_stored.
Qed.

(** What stands behind an identity that [authenticate] returned. *)
Lemma authenticate_success_inv request w u c w' :
  authenticate E request w = (Return (Some (u, c)), w') ->
  c = None /\
  exists auth_header token jwks w1 keys key public_key payload,
    headers request !! "Authorization" = Some auth_header /\
    auth_header <> "" /\
    split space auth_header !! 1%nat = Some token /\
    get_jwks E w = (Return jwks, w1) /\
    getitem_str jwks "keys" = Return keys /\
    getitem_idx keys 0 = Return key /\
    from_jwk E key = inr public_key /\
    jwt_decode E token public_key ["RS256"] true = inr payload /\
    sub payload = Some (username u) /\
    username u <> "" /\
    get_or_create E (username u) w1 = (Return u, w').
Proof.
  intros H.
  destruct (authenticate_cases request w)
    as [Ha|[Ha|(auth_header & token & Hh & Hne & Ht & Ha)]];
    rewrite Ha in H; try done.
  rewrite decode_jwt_unfold in H.
  destruct (get_jwks E w) as [[jwks|e] w1] eqn:Hj; [|done].
  destruct (getitem_str jwks "keys") as [keys|e] eqn:Hk; [|done].
  destruct (getitem_idx keys 0) as [key|e] eqn:H0; [|done].
  destruct (from_jwk E key) as [e|public_key] eqn:Hpk; [done|].
  destruct (jwt_decode E token public_key ["RS256"] true)
    as [e|payload] eqn:Hd; [done|].
  unfold resolve in H. destruct (sub payload) as [name|] eqn:Hsub; [|done].
  destruct (String.eqb name "") eqn:Hname; [done|]. simpl in H.
  apply String.eqb_neq in Hname. unfold bind in H.
  destruct (get_or_create E name w1) as [[v|e] w2] eqn:Hg; [|done].
  simpl in H. injection H as -> <- ->.
  destruct (get_or_create_named name w1 u w' Hg) as [Hu _]. subst name.
  split; [done|].
  by exists auth_header, token, jwks, w1, keys, key, public_key, payload.
Qed.

(** X9.  No identity without an accepted token.  When [authenticate]
    returns a user, the request carried a token as the second component
    of its header, [jwt.decode] accepted that token under the key of
    entry 0 with RS256 and signature verification on, the subject of the
    payload is the non-empty name of the returned user, and the user is a
    row of the user table; the credentials beside the user are [None]. *)
Theorem authenticate_identity request w u c w' :
  authenticate E request w = (Return (Some (u, c)), w') ->
  c = None /\
  username u <> "" /\
  u ∈ users w' /\
  exists auth_header token jwks w1 keys key public_key payload,
    headers request !! "Authorization" = Some auth_header /\
    split space auth_header !! 1%nat = Some token /\
    get_jwks E w = (Return jwks, w1) /\
    getitem_str jwks "keys" = Return keys /\
    getitem_idx keys 0 = Return key /\
    from_jwk E key = inr public_key /\
    jwt_decode E token public_key ["RS256"] true = inr payload /\
    sub payload = Some (username u).
Proof.
  intros H.
  destruct (authenticate_success_inv request w u c w' H)
    as (-> & auth_header & token & jwks & w1 & keys & key & public_key
        & payload & Hh & _ & Ht & Hj & Hk & H0 & Hpk & Hd & Hsub & Hne & Hg).
  split; [done|]. split; [done|]. split.
  - destruct (get_or_create_named _ w1 u w' Hg) as [_ Hfl].
    apply (filter_named_In (username u) (users w') u). rewrite Hfl. by left.
  - by exists auth_header, token, jwks, w1, keys, key, public_key, payload.
Qed.

Lemma replay_cache_mono events w k :
  is_Some (cache w !! k) -> is_Some (cache (replay events w) !! k).
Proof.
  revert w. induction events as [|e events IH]; intros w H; [done|].
  simpl. apply IH. destruct e; simpl; try done.
  apply lookup_insert_is_Some. destruct (decide (key = k)); auto.
Qed.

Lemma creation_cache u w : cache (replay (creation u) w) = cache w.
Proof. done. Qed.

Lemma effects_requests ke ie name rows :
  key_effects E ke -> info_effects E name ie ->
  rows = [] \/ (exists u, rows = creation u) ->
  length (List.filter is_HttpGet (ke ++ ie ++ rows)) <= 2 /\
  forall q, HttpGet q ∈ (ke ++ ie ++ rows)%list ->
            q = jwks_request E \/ q = user_request E name.
Proof.
  intros [->|[->|[d ->]]] [->|[->|[d' ->]]] [->|[u ->]]; simpl;
    (split; [lia|]); intros q Hq;
    repeat (apply elem_of_cons in Hq as [Hq|Hq]; [simplify_eq; auto|]);
    by apply elem_of_nil in Hq.
Qed.

(** What a run leaves in the tables. *)
Lemma run_of_tables w r w' ke ie :
  key_effects E ke -> (exists name, info_effects E name ie) ->
  run_of E w r w' ke ie ->
  (users w' = users w /\ user_seq w' = user_seq w /\
   profiles w' = profiles w /\ activities w' = activities w) \/
  (exists u,
     r = Return (Some (u, None)) /\
     unknown (username u) w /\ pk u = user_seq w /\
     users w' = (users w ++ [u])%list /\
     user_seq w' = S (user_seq w) /\
     profiles w' = (profiles w ++ [mkProfile (pk u)])%list /\
     activities w' = (activities w ++ [mkUserActivity (pk u)])%list).
Proof.
  intros Hke [name Hie] [[-> _]|(u & -> & -> & Hun & _ & Hpk & Hie')].
  - left. rewrite replay_app.
    destruct (info_effects_tables name ie (replay ke w) Hie)
      as (-> & -> & -> & ->).
    by apply key_effects_tables.
  - right. exists u. rewrite !replay_app.
    destruct (key_effects_tables ke w Hke) as (Hu & Hs & Hp & Ha).
    destruct (info_effects_tables _ ie (replay ke w) Hie')
      as (Hu' & Hs' & Hp' & Ha').
    simpl. rewrite Hu', Hs', Hp', Ha', Hu, Hs, Hp, Ha. by repeat split.
Qed.

(** X11.  One call of [authenticate] sends at most two HTTP requests, and
    each of them is either the GET of the key set, which carries no
    header, or the GET of the user info of one subject; the secret key
    goes nowhere else. *)
Theorem authenticate_requests request w :
  exists events user_id,
    trace (snd (authenticate E request w)) = (trace w ++ events)%list /\
    length (List.filter is_HttpGet events) <= 2 /\
    forall q, HttpGet q ∈ events ->
              q = jwks_request E \/ q = user_request E user_id.
Proof.
  destruct (authenticate E request w) as [r w'] eqn:H. simpl.
  destruct (authenticate_run request w r w' H)
    as (ke & ie & Hke & [name Hie] & [[-> _]|(u & _ & -> & _ & _ & _ & Hie')]).
  - exists (ke ++ ie)%list, name. split; [apply trace_replay|].
    pose proof (effects_requests ke ie name [] Hke Hie) as Hr.
    rewrite app_nil_r in Hr. apply Hr. by left.
  - exists (ke ++ ie ++ creation u)%list, (username u).
    split; [apply trace_replay|].
    apply (effects_requests ke ie (username u) (creation u) Hke Hie').
    right. by exists u.
Qed.

Lemma replay_kept ke ie name w :
  key_effects E ke -> info_effects E name ie ->
  users (replay (ke ++ ie) w) = users w /\
  user_seq (replay (ke ++ ie) w) = user_seq w /\
  profiles (replay (ke ++ ie) w) = profiles w /\
  activities (replay (ke ++ ie) w) = activities w.
Proof.
  intros Hke Hie. rewrite replay_app.
  destruct (info_effects_tables name ie (replay ke w) Hie)
    as (-> & -> & -> & ->).
  by apply key_effects_tables.
Qed.

Lemma replay_created ke ie name u w :
  key_effects E ke -> info_effects E name ie ->
  users (replay (ke ++ ie ++ creation u) w) = (users w ++ [u])%list /\
  user_seq (replay (ke ++ ie ++ creation u) w) = S (user_seq w) /\
  profiles (replay (ke ++ ie ++ creation u) w)
    = (profiles w ++ [mkProfile (pk u)])%list /\
  activities (replay (ke ++ ie ++ creation u) w)
    = (activities w ++ [mkUserActivity (pk u)])%list.
Proof.
  intros Hke Hie. rewrite app_assoc, replay_app.
  destruct (replay_kept ke ie name w Hke Hie) as (Hu & Hs & Hp & Ha).
  simpl. by rewrite Hu, Hs, Hp, Ha.
Qed.

(** X12.  What one call of [authenticate] does to the tables.  It only
    appends: the rows that were there stay, unchanged and in place, and
    each table gains one row at most.  When it returns [None] or raises
    an AuthenticationFailed, the three tables are as they were.  When it
    returns a user, either that user was in the table before and the
    tables are as they were, or no row had that name before and the user
    table has gained exactly that row, with the next primary key, and
    the profile and activity tables one row each for it. *)
Theorem authenticate_tables request w r w' :
  authenticate E request w = (r, w') ->
  (users w `prefix_of` users w' /\
   profiles w `prefix_of` profiles w' /\
   activities w `prefix_of` activities w' /\
   length (users w') <= S (length (users w)) /\
   length (profiles w') <= S (length (profiles w)) /\
   length (activities w') <= S (length (activities w))) /\
  (r = Return None \/ (exists detail, r = Raise (AuthenticationFailed detail)) ->
   users w' = users w /\ user_seq w' = user_seq w /\
   profiles w' = profiles w /\ activities w' = activities w) /\
  (forall u c,
     r = Return (Some (u, c)) ->
     (u ∈ users w /\
      users w' = users w /\ user_seq w' = user_seq w /\
      profiles w' = profiles w /\ activities w' = activities w) \/
     (unknown (username u) w /\ pk u = user_seq w /\
      users w' = (users w ++ [u])%list /\
      user_seq w' = S (user_seq w) /\
      profiles w' = (profiles w ++ [mkProfile (pk u)])%list /\
      activities w' = (activities w ++ [mkUserActivity (pk u)])%list)).
Proof.
  intros H.
  destruct (authenticate_run request w r w' H)
    as (ke & ie & Hke & [name Hie] & [[-> Hr]|(v & -> & -> & Hun & _ & Hpk & Hie')]).
  - destruct (replay_kept ke ie name w Hke Hie) as (Hu & Hs & Hp & Ha).
    rewrite Hu, Hs, Hp, Ha. split; [|split].
    + repeat split; try done; lia.
    + done.
    + intros u c ->. left.
      destruct Hr as [[=]|[(v & [= <- _] & Hv & _)|(e & [=] & _)]].
      by repeat split.
  - destruct (replay_created ke ie (username v) v w Hke Hie')
      as (Hu & Hs & Hp & Ha).
    rewrite Hu, Hs, Hp, Ha. split; [|split].
    + repeat split; try (by eexists); rewrite length_app; simpl; lia.
    + by intros [[=]|[detail [=]]].
    + intros u c [= <- _]. right. by repeat split.
Qed.

(** X13.  What one call of [authenticate] does to the cache: it writes
    under ["jwks_data"] and under the user info key of one subject at
    most, every other key keeps what it had, and no entry is removed. *)
Theorem authenticate_cache request w :
  (exists user_id, forall k,
     k <> CACHE_KEY -> k <> user_info_key user_id ->
     cache (snd (authenticate E request w)) !! k = cache w !! k) /\
  (forall k,
     is_Some (cache w !! k) ->
     is_Some (cache (snd (authenticate E request w)) !! k)).
Proof.
  destruct (authenticate E request w) as [r w'] eqn:H. simpl.
  destruct (authenticate_run request w r w' H)
    as (ke & ie & Hke & [name Hie] & [[-> _]|(u & _ & -> & _ & _ & _ & Hie')]).
  - split; [|intros k; apply replay_cache_mono].
    exists name. intros k Hk1 Hk2. rewrite replay_app.
    rewrite (info_effects_cache name ie _ k Hie Hk2).
    by apply key_effects_cache.
  - split; [|intros k; apply replay_cache_mono].
    exists (username u). intros k Hk1 Hk2.
    rewrite app_assoc, replay_app, creation_cache, replay_app.
    rewrite (info_effects_cache _ ie _ k Hie' Hk2).
    by apply key_effects_cache.
Qed.

(** X14.  [authenticate] keeps the tables consistent: when user names and
    primary keys are unique, the keys lie below the sequence and every
    profile and activity row refers to a user, the same holds after the
    call, whatever its outcome. *)
Theorem authenticate_store_ok request w r w' :
  authenticate E request w = (r, w') -> store_ok w -> store_ok w'.
Proof.
  intros H (Hnames & Hpks & Hseq & Hprof & Hact).
  destruct (authenticate_run request w r w' H) as (ke & ie & Hke & Hie & Hrun).
  destruct (run_of_tables w r w' ke ie Hke Hie Hrun)
    as [(Hu & Hs & Hp & Ha)
       |(u & _ & Hun & Hpk & Hu & Hs & Hp & Ha)];
    unfold store_ok; rewrite Hu, Hs, Hp, Ha; [done|].
  repeat split.
  - rewrite fmap_app. apply NoDup_app. split; [done|]. split.
    + intros x Hx Hx'. apply list_elem_of_fmap in Hx as (v & -> & Hv).
      apply list_elem_of_singleton in Hx'. by apply (Hun v).
    + apply NoDup_singleton.
  - rewrite fmap_app. apply NoDup_app. split; [done|]. split.
    + intros x Hx Hx'. apply list_elem_of_fmap in Hx as (v & -> & Hv).
      apply list_elem_of_singleton in Hx'. simpl in Hx'.
      specialize (Hseq v Hv). lia.
    + apply NoDup_singleton.
  - intros v Hv. apply elem_of_app in Hv as [Hv|Hv].
    + specialize (Hseq v Hv). lia.
    + apply list_elem_of_singleton in Hv as ->. lia.
  - intros p Hp'. apply elem_of_app in Hp' as [Hp'|Hp'].
    + destruct (Hprof p Hp') as (v & Hv & Hvp). exists v.
      split; [|done]. apply elem_of_app. by left.
    + apply list_elem_of_singleton in Hp' as ->. exists u.
      split; [|done]. apply elem_of_app. right. by apply list_elem_of_singleton.
  - intros a Ha'. apply elem_of_app in Ha' as [Ha'|Ha'].
    + destruct (Hact a Ha') as (v & Hv & Hva). exists v.
      split; [|done]. apply elem_of_app. by left.
    + apply list_elem_of_singleton in Ha' as ->. exists u.
      split; [|done]. apply elem_of_app. right. by apply list_elem_of_singleton.
Qed.

Lemma split_app_sep sep a b :
  contains sep a = false ->
  split sep (a +:+ String sep b) = a :: split sep b.
Proof.
  induction a as [|c a IH]; simpl.
  - intros _. by rewrite Ascii.eqb_refl.
  - destruct (Ascii.eqb c sep); simpl; [done|].
    intros H. by rewrite (IH H).
Qed.

Lemma filter_none {A} (f : A -> bool) (l : list A) :
  (forall x, x ∈ l -> f x = false) -> List.filter f l = [].
Proof.
  induction l as [|y l IH]; intros H; simpl; [done|].
  rewrite (H y) by (by left). apply IH. intros x Hx. apply H. by right.
Qed.

(** X15.  In consistent tables where every user has exactly one profile
    and one activity row, every user still has exactly one of each after
    a call of [authenticate], the user it may have created included. *)
Theorem authenticate_one_each request w r w' :
  authenticate E request w = (r, w') ->
  store_ok w -> one_each w -> one_each w'.
Proof.
  intros H (_ & _ & Hseq & Hprof & Hact) Hone.
  destruct (authenticate_run request w r w' H) as (ke & ie & Hke & Hie & Hrun).
  destruct (run_of_tables w r w' ke ie Hke Hie Hrun)
    as [(Hu & Hs & Hp & Ha)
       |(u & _ & Hun & Hpk & Hu & Hs & Hp & Ha)];
    unfold one_each, profiles_of, activities_of; rewrite Hu, Hp, Ha;
    [exact Hone|].
  intros v Hv. rewrite !List.filter_app, !length_app. simpl.
  apply elem_of_app in Hv as [Hv|Hv].
  - destruct (Hone v Hv) as [Hp1 Ha1].
    unfold profiles_of, activities_of in Hp1, Ha1. rewrite Hp1, Ha1.
    specialize (Hseq v Hv).
    assert (Hne : Nat.eqb (pk u) (pk v) = false)
      by (apply Nat.eqb_neq; lia).
    by rewrite Hne.
  - apply list_elem_of_singleton in Hv as ->. rewrite Nat.eqb_refl. simpl.
    assert (Hnop : List.filter (fun p => Nat.eqb (profile_user p) (pk u))
                               (profiles w) = []).
    { apply filter_none. intros p Hp'.
      destruct (Hprof p Hp') as (x & Hx & Hxp). specialize (Hseq x Hx).
      apply Nat.eqb_neq. lia. }
    assert (Hnoa : List.filter (fun a => Nat.eqb (activity_user a) (pk u))
                               (activities w) = []).
    { apply filter_none. intros a Ha'.
      destruct (Hact a Ha') as (x & Hx & Hxa). specialize (Hseq x Hx).
      apply Nat.eqb_neq. lia. }
    by rewrite Hnop, Hnoa.
Qed.

(** X16.  Three exceptions of [authenticate].  An AuthenticationFailed
    that it raises carries one of five details.  The DoesNotExist of the
    user lookup never gets out: it is what starts the provisioning.  The
    MultipleObjectsReturned of that lookup gets out only when two rows of
    the user table already share a name. *)
Theorem authenticate_exceptions request w e w' :
  authenticate E request w = (Raise e, w') ->
  (forall detail, e = AuthenticationFailed detail -> detail ∈ rejections) /\
  e <> DoesNotExist /\
  (e = MultipleObjectsReturned -> ~ NoDup (username <$> users w)).
Proof.
  intros H.
  destruct (authenticate_run request w _ w' H)
    as (ke & ie & _ & _ & [[_ [|[(u & ? & _)|(e' & [= <-] & Hf)]]]
                          |(u & ? & _)]); try done.
  destruct Hf as [(detail & -> & Hd)|[Hl|[[j ->]|[-> Hdup]]]].
  - repeat split; try done. by intros ? [= <-].
  - repeat split; by destruct e.
  - by repeat split.
  - by repeat split.
Qed.

(** X17.  The scheme is not looked at.  Whatever stands before the first
    space of the header value, the word ["Basic"] or nothing at all, the
    component after it is taken for the token and decoded; and what
    follows a second space is ignored. *)
Theorem authenticate_scheme_ignored request scheme token rest w :
  contains space scheme = false ->
  contains space token = false ->
  headers request !! "Authorization" = Some (scheme +:+ " " +:+ token) \/
  headers request !! "Authorization"
    = Some (scheme +:+ " " +:+ token +:+ " " +:+ rest) ->
  authenticate E request w = identity_of (decode_jwt E token w).
Proof.
  intros Hs Ht [Hh|Hh];
    apply (authenticate_token E request _ token w Hh);
    try (by destruct scheme).
  - change (scheme +:+ " " +:+ token) with (scheme +:+ String space token).
    by rewrite (split_app_sep _ _ _ Hs), (split_without _ _ Ht).
  - change (scheme +:+ " " +:+ token +:+ " " +:+ rest)
      with (scheme +:+ String space (token +:+ String space rest)).
    by rewrite (split_app_sep _ _ _ Hs), (split_app_sep _ _ _ Ht).
Qed.

End Runs.

(** * Beyond the claims: a later call *)

Section LaterCalls.

(** The collaborators at the time of the first call, and at the time of
    a later one: the library may judge the token differently by then, and
    the provider may answer differently. *)
Variables E E' : Collaborators.

(** X10.  After a request has been authenticated as a user, a later call
    for the same request, started in the world the first call left,
    returns the same user, sends no HTTP request and writes neither to
    the cache nor to the tables, provided that at the later call the
    library again accepts the token with the same subject under the key
    of entry 0 of the cached key set.  Nothing else is asked of the later
    collaborators: the provider may be down. *)
Theorem authenticate_again request w u c w' :
  authenticate E request w = (Return (Some (u, c)), w') ->
  (forall auth_header token keys key,
     headers request !! "Authorization" = Some auth_header ->
     split space auth_header !! 1%nat = Some token ->
     getitem_str (cached CACHE_KEY w') "keys" = Return keys ->
     getitem_idx keys 0 = Return key ->
     exists public_key payload,
       from_jwk E' key = inr public_key /\
       jwt_decode E' token public_key ["RS256"] true = inr payload /\
       sub payload = Some (username u)) ->
  authenticate E' request w' = (Return (Some (u, c)), w').
Proof.
  intros H Haccept.
  destruct (authenticate_success_inv E request w u c w' H)
    as (-> & auth_header & token & jwks & w1 & keys & key & public_key
        & payload & Hh & Hne & Ht & Hj & Hk & H0 & _ & _ & _ & Hname & Hg).
  rewrite (authenticate_token E' request auth_header token w' Hh Hne Ht).
  assert (Hc : cached CACHE_KEY w' = jwks).
  { rewrite (get_or_create_keeps_jwks E _ w1 _ w' Hg).
    by apply (get_jwks_cached E w). }
  assert (Hj' : get_jwks E' w' = (Return jwks, w')).
  { rewrite <- Hc at 1. apply get_jwks_hit. rewrite Hc.
    by apply (usable_truthy jwks keys). }
  rewrite <- Hc in Hk.
  destruct (Haccept auth_header token keys key Hh Ht Hk H0)
    as (public_key' & payload' & Hpk' & Hd' & Hsub').
  rewrite Hc in Hk.
  rewrite decode_jwt_unfold, Hj', Hk, H0, Hpk', Hd', Hsub'. simpl.
  apply String.eqb_neq in Hname. rewrite Hname. simpl. unfold bind.
  destruct (get_or_create_named E _ w1 u w' Hg) as [_ Hfl].
  by rewrite (get_or_create_found E' _ w' u Hfl).
Qed.

End LaterCalls.

(** * Beyond the claims: isolation and outage *)

Section Isolation.

Variable E : Collaborators.

Lemma user_info_key_inj a b : user_info_key a = user_info_key b -> a = b.
Proof. unfold user_info_key. cbn. intros H. by simplify_eq. Qed.

(** X18.  Fetching the info of one user leaves alone what is cached for
    every other user and the cached key set, whatever the provider
    answers. *)
Theorem fetch_user_info_isolated user_id w :
  (forall other,
     other <> user_id ->
     cache (snd (fetch_user_info E user_id w)) !! user_info_key other
       = cache w !! user_info_key other) /\
  cache (snd (fetch_user_info E user_id w)) !! CACHE_KEY
    = cache w !! CACHE_KEY.
Proof.
  destruct (fetch_user_info E user_id w) as [r w'] eqn:H. simpl.
  destruct (fetch_user_info_outcome E user_id w r w' H) as (ie & Hie & -> & _).
  split.
  - intros other Hne. apply (info_effects_cache E user_id ie w _ Hie).
    intros Heq. by apply Hne, user_info_key_inj.
  - apply (info_effects_cache E user_id ie w _ Hie).
    intros Heq. by apply (user_info_key_not_jwks user_id).
Qed.

(** X19.  While no truthy key set is cached and the key endpoint answers
    with a status other than 200, every token is rejected with "Failed to
    fetch JWKS.", the tokens of known users included: the token is not
    looked at, no user is looked up, and the one GET is all that
    happens. *)
Theorem decode_jwt_keys_unavailable w :
  truthy (cached CACHE_KEY w) = false ->
  status_code (net E (trace w) (jwks_request E)) <> 200%Z ->
  (forall token,
     decode_jwt E token w =
       (Raise (AuthenticationFailed "Failed to fetch JWKS."),
        traced (HttpGet (jwks_request E)) w)) /\
  (forall request auth_header token,
     headers request !! "Authorization" = Some auth_header ->
     auth_header <> "" ->
     split space auth_header !! 1%nat = Some token ->
     authenticate E request w =
       (Raise (AuthenticationFailed "Failed to fetch JWKS."),
        traced (HttpGet (jwks_request E)) w)).
Proof.
  intros Hmiss Hs.
  assert (Hd : forall token,
            decode_jwt E token w =
              (Raise (AuthenticationFailed "Failed to fetch JWKS."),
               traced (HttpGet (jwks_request E)) w)).
  { intros token. rewrite decode_jwt_unfold, (get_jwks_miss E w Hmiss).
    cbv zeta. apply Z.eqb_neq in Hs. by rewrite Hs. }
  split; [exact Hd|].
  intros request auth_header token Hh Hne Ht.
  by rewrite (authenticate_token E request auth_header token w Hh Hne Ht), Hd.
Qed.

End Isolation.

(** * Beyond the claims: the middleware at work *)

(** User info that is in the cache is not asked for. *)
Lemma fetch_user_info_cached_demo :
  let w := with_info "user_123" user_123_info empty_world in
  snd (fetch_user_info (demo peer_500) "user_123" w) = w /\
  fst (fetch_user_info (demo peer_500) "user_123" w)
    = Return (mkUserInfo (JStr "a@b.com") (JStr "A") (JStr "B")
                         (Some (UtcMillis 1700000000000)), true).
Proof.
  intros w.
  destruct (fetch_user_info_cached (demo peer_500) "user_123" w eq_refl)
    as (Hw & Hinfo & _).
  split; [exact Hw|].
  apply (Hinfo
           [("email_addresses",
             JList [JDict [("email_address", JStr "a@b.com")]]);
            ("first_name", JStr "A");
            ("last_name", JStr "B");
            ("last_sign_in_at", JNum 1700000000000)]
           [("email_address", JStr "a@b.com")] []); try reflexivity.
  unfold exact_millis. lia.
Defined.

(** The second fetch is served from the cache. *)
Lemma fetch_user_info_again_demo :
  let first := fetch_user_info (demo peer_ok) "user_123" empty_world in
  fetch_user_info (demo peer_ok) "user_123" (snd first) = first.
Proof.
  apply (fetch_user_info_again (demo peer_ok) "user_123" empty_world);
    reflexivity.
Defined.

(** A user without an email address cannot be provisioned. *)
Lemma fetch_user_info_no_email_demo :
  fst (get_or_create (demo (peer_with info_without_email)) "user_7"
                     empty_world) = Raise IndexError /\
  users (snd (get_or_create (demo (peer_with info_without_email)) "user_7"
                            empty_world)) = [].
Proof.
  destruct (fetch_user_info_no_email (demo (peer_with info_without_email))
              "user_7" empty_world
              [("email_addresses", JList []);
               ("first_name", JStr "A");
               ("last_name", JStr "B");
               ("last_sign_in_at", JNum 1700000000000)]
              eq_refl eq_refl eq_refl) as [_ H].
  destruct H as (Hg & _).
  - intros u Hu. by apply elem_of_nil in Hu.
  - rewrite Hg. split; reflexivity.
Defined.

(** A user who has never signed in cannot be provisioned. *)
Lemma fetch_user_info_never_signed_in_demo :
  fst (get_or_create (demo (peer_with info_never_signed_in)) "user_7"
                     empty_world) = Raise TypeError /\
  users (snd (get_or_create (demo (peer_with info_never_signed_in)) "user_7"
                            empty_world)) = [].
Proof.
  destruct (fetch_user_info_never_signed_in
              (demo (peer_with info_never_signed_in)) "user_7" empty_world
              [("email_addresses",
                JList [JDict [("email_address", JStr "a@b.com")]]);
               ("first_name", JStr "A");
               ("last_name", JStr "B");
               ("last_sign_in_at", JNull)]
              [("email_address", JStr "a@b.com")]
              (JStr "a@b.com") (JStr "A") (JStr "B")
              eq_refl eq_refl eq_refl eq_refl eq_refl eq_refl eq_refl)
    as [_ H].
  destruct H as (Hg & _).
  - intros u Hu. by apply elem_of_nil in Hu.
  - rewrite Hg. split; reflexivity.
Defined.

(** Provisioning from the cache, with the provider down. *)
Lemma get_or_create_from_cache_demo :
  let w := with_info "user_123" user_123_info empty_world in
  get_or_create (demo peer_500) "user_123" w
    = (Return user_123, provisioned user_123 w).
Proof.
  intros w.
  apply (get_or_create_from_cache (demo peer_500) "user_123" w
           [("email_addresses",
             JList [JDict [("email_address", JStr "a@b.com")]]);
            ("first_name", JStr "A");
            ("last_name", JStr "B");
            ("last_sign_in_at", JNum 1700000000000)]
           [("email_address", JStr "a@b.com")] []
           (JStr "a@b.com") (JStr "A") (JStr "B") 1700000000000);
    try reflexivity.
  - intros u Hu. by apply elem_of_nil in Hu.
  - unfold exact_millis. lia.
Defined.

(** The key set is fetched once. *)
Lemma get_jwks_again_demo :
  let w1 := snd (get_jwks (demo peer_ok) empty_world) in
  get_jwks (demo peer_ok) w1 = (Return (jwks_of ["k1"; "k2"]), w1).
Proof.
  intros w1.
  apply (proj1 (get_jwks_again (demo peer_ok) empty_world
                  (jwks_of ["k1"; "k2"]) w1 eq_refl)).
  reflexivity.
Defined.

(** A bad signature is a decode error. *)
Lemma decode_jwt_library_errors_demo :
  decode_jwt (demo peer_ok) "k2.user_123" empty_world
    = (Raise (AuthenticationFailed "Token decode error."),
       snd (get_jwks (demo peer_ok) empty_world)).
Proof.
  destruct (decode_jwt_library_errors (demo peer_ok) "k2.user_123"
              empty_world (jwks_of ["k1"; "k2"])
              (snd (get_jwks (demo peer_ok) empty_world))
              (JList [jwk "k1"; jwk "k2"]) (jwk "k1")
              eq_refl eq_refl eq_refl) as [_ H].
  destruct (H "k1" InvalidSignatureError eq_refl eq_refl) as (_ & Hd & _).
  apply Hd. reflexivity.
Defined.

(** A token with an empty subject. *)
Lemma decode_jwt_no_subject_demo :
  authenticate (demo peer_ok) (bearer "Bearer k1.") empty_world
    = (Return None, snd (get_jwks (demo peer_ok) empty_world)).
Proof.
  destruct (decode_jwt_no_subject (demo peer_ok) "k1." empty_world
              (jwks_of ["k1"; "k2"])
              (snd (get_jwks (demo peer_ok) empty_world))
              (JList [jwk "k1"; jwk "k2"]) (jwk "k1") "k1"
              (mkPayload (Some ""))
              eq_refl eq_refl eq_refl eq_refl eq_refl
              (or_intror eq_refl)) as [_ H].
  apply (H (bearer "Bearer k1.") "Bearer k1."); [reflexivity | discriminate
                                                | reflexivity].
Defined.

(** Behind the identity of ["user_123"]. *)
Lemma authenticate_identity_demo :
  user_123 ∈ users (snd (authenticate (demo peer_ok)
                           (bearer "Bearer k1.user_123") empty_world)).
Proof.
  destruct (authenticate_identity (demo peer_ok)
              (bearer "Bearer k1.user_123") empty_world user_123 None
              (snd (authenticate (demo peer_ok)
                      (bearer "Bearer k1.user_123") empty_world))
              eq_refl) as (_ & _ & H & _).
  exact H.
Defined.

(** The same request, once more, with the provider down by then. *)
Lemma authenticate_again_demo :
  let w' := snd (authenticate (demo peer_ok) (bearer "Bearer k1.user_123")
                              empty_world) in
  authenticate (demo peer_500) (bearer "Bearer k1.user_123") w'
    = (Return (Some (user_123, None)), w').
Proof.
  intros w'.
  apply (authenticate_again (demo peer_ok) (demo peer_500)
           (bearer "Bearer k1.user_123") empty_world user_123 None w').
  - reflexivity.
  - intros auth_header token keys key Hh Ht Hk H0.
    vm_compute in Hh. injection Hh as <-.
    vm_compute in Ht. injection Ht as <-.
    vm_compute in Hk. injection Hk as <-.
    vm_compute in H0. injection H0 as <-.
    exists "k1", (mkPayload (Some "user_123")). by repeat split.
Defined.

(** The tables after the first sight of ["user_123"]. *)
Lemma authenticate_tables_demo :
  let w' := snd (authenticate (demo peer_ok) (bearer "Bearer k1.user_123")
                              empty_world) in
  users w' = [user_123] /\ profiles w' = [mkProfile 1] /\
  activities w' = [mkUserActivity 1].
Proof.
  intros w'.
  destruct (authenticate_tables (demo peer_ok) (bearer "Bearer k1.user_123")
              empty_world (Return (Some (user_123, None))) w' eq_refl)
    as (_ & _ & H).
  destruct (H user_123 None eq_refl)
    as [(Hin & _)|(_ & _ & Hu & _ & Hp & Ha)].
  - by apply elem_of_nil in Hin.
  - by rewrite Hu, Hp, Ha.
Defined.

Lemma store_ok_empty : store_ok empty_world.
Proof.
  repeat split; try apply NoDup_nil_2;
    intros x Hx; by apply elem_of_nil in Hx.
Qed.

Lemma one_each_empty : one_each empty_world.
Proof. intros u Hu. by apply elem_of_nil in Hu. Qed.

(** Consistent tables after the first request. *)
Lemma authenticate_store_ok_demo :
  store_ok (snd (authenticate (demo peer_ok) (bearer "Bearer k1.user_123")
                              empty_world)).
Proof.
  apply (authenticate_store_ok (demo peer_ok) (bearer "Bearer k1.user_123")
           empty_world (Return (Some (user_123, None))) _ eq_refl).
  apply store_ok_empty.
Defined.

(** One profile and one activity after the first request. *)
Lemma authenticate_one_each_demo :
  one_each (snd (authenticate (demo peer_ok) (bearer "Bearer k1.user_123")
                              empty_world)).
Proof.
  apply (authenticate_one_each (demo peer_ok) (bearer "Bearer k1.user_123")
           empty_world (Return (Some (user_123, None))) _ eq_refl).
  - apply store_ok_empty.
  - apply one_each_empty.
Defined.

(** The exception of a bad signature is one of the five rejections. *)
Lemma authenticate_exceptions_demo :
  fst (authenticate (demo peer_ok) (bearer "Bearer k2.user_123") empty_world)
    = Raise (AuthenticationFailed "Token decode error.") /\
  "Token decode error." ∈ rejections.
Proof.
  split; [reflexivity|].
  destruct (authenticate_exceptions (demo peer_ok)
              (bearer "Bearer k2.user_123") empty_world
              (AuthenticationFailed "Token decode error.")
              (snd (get_jwks (demo peer_ok) empty_world)) eq_refl)
    as (H & _).
  by apply H.
Defined.

(** A Basic header is taken for a bearer token. *)
Lemma authenticate_scheme_ignored_demo :
  authenticate (demo peer_ok) (bearer "Basic k1.user_123") empty_world
    = identity_of (decode_jwt (demo peer_ok) "k1.user_123" empty_world) /\
  fst (authenticate (demo peer_ok) (bearer "Basic k1.user_123") empty_world)
    = Return (Some (user_123, None)).
Proof.
  split; [|reflexivity].
  apply (authenticate_scheme_ignored (demo peer_ok)
           (bearer "Basic k1.user_123") "Basic" "k1.user_123" "" empty_world
           eq_refl eq_refl).
  left. reflexivity.
Defined.

(** With the provider down, a known user is turned away. *)
Lemma decode_jwt_keys_unavailable_demo :
  authenticate (demo peer_500) (bearer "Bearer k1.user_123") known_world
    = (Raise (AuthenticationFailed "Failed to fetch JWKS."),
       traced (HttpGet (jwks_request (demo peer_500))) known_world).
Proof.
  destruct (decode_jwt_keys_unavailable (demo peer_500) known_world eq_refl)
    as [_ H].
  - simpl. discriminate.
  - apply (H (bearer "Bearer k1.user_123") "Bearer k1.user_123"
             "k1.user_123"); [reflexivity | discriminate | reflexivity].
Defined.

(** Fetching ["user_123"] leaves the cached info of ["user_7"] alone. *)
Lemma fetch_user_info_isolated_demo :
  let w := with_info "user_7" user_123_info empty_world in
  cache (snd (fetch_user_info (demo peer_ok) "user_123" w))
    !! user_info_key "user_7" = cache w !! user_info_key "user_7".
Proof.
  intros w.
  apply (proj1 (fetch_user_info_isolated (demo peer_ok) "user_123" w)).
  discriminate.
Defined.
